(** * Static dependency analyzer of the Smart PyInstaller Builder

    A shallow embedding of the analysis core of [pyexe.py]: module
    classification, import extraction from a syntax tree, literal file
    discovery, project scanning, data mapping and command assembly.

    Python values are modelled as follows:
    - [str] as [string], [set] as [gset], [dict] as [gmap], [list] as [list];
    - [pathlib.Path] as an anchor (drive and root) with a list of components;
    - the file system, the interpreter and the [ast], [re] and [importlib]
      libraries as records of functions: a snapshot of the environment
      that the functions of the program read but never change;
    - a [try] block as a computation in a small error monad. *)

From Stdlib Require Import Ascii String ZArith DecimalString DecimalN.
From stdpp Require Import base option list strings gmap sets sorting.

Set Warnings "-register-all,-clear-no-such-hyp".
Local Open Scope string_scope.
Local Open Scope list_scope.
Local Open Scope nat_scope.

(** ** Strings *)

(** [s.split(sep)] for a separator of one character. *)
Fixpoint split (sep : ascii) (s : string) : list string :=
  match s with
  | EmptyString => [""]
  | String c rest =>
      if Ascii.eqb c sep then "" :: split sep rest
      else match split sep rest with
           | [] => [String c ""]
           | seg :: segs => String c seg :: segs
           end
  end.

(** [sep.join(l)] *)
Fixpoint join (sep : string) (l : list string) : string :=
  match l with
  | [] => ""
  | [s] => s
  | s :: rest => s +:+ sep +:+ join sep rest
  end.

(** The truth value of a [str]: the empty string is false. *)
Definition truthy (s : string) : bool := negb (String.eqb s "").

(** [raw.replace("\\\\", "\\")]: every pair of backslashes, found from left
    to right without overlap, becomes one backslash. *)
Fixpoint replace_double_backslash (s : string) : string :=
  match s with
  | String "\" (String "\" rest) => String "\" (replace_double_backslash rest)
  | String c rest => String c (replace_double_backslash rest)
  | EmptyString => EmptyString
  end.

Definition top_level_module (name : string) : string :=
  if truthy name then hd "" (split "." name) else name.

(** ** Paths *)

Module Path.

(** A pure path: [anchor] is the drive and root (empty for a relative
    path), [parts] are the components below it. *)
Record t := mk { anchor : string; parts : list string }.

#[global] Instance eq_dec : EqDecision t.
Proof. solve_decision. Defined.

#[global] Instance countable : Countable t :=
  inj_countable' (λ p, (anchor p, parts p)) (λ ap, mk ap.1 ap.2)
                 (λ p, match p with mk _ _ => eq_refl end).

Definition is_absolute (p : t) : bool := truthy (anchor p).

(** [p.parent]: the anchor and the empty relative path are their own
    parent. *)
Definition parent (p : t) : t := mk (anchor p) (removelast (parts p)).

(** [p.name]: the last component, empty for an anchor. *)
Definition name (p : t) : string := List.last (parts p) "".

(** [p / q] *)
Definition joinpath (p q : t) : t :=
  if is_absolute q then q else mk (anchor p) (parts p ++ parts q).

(** [p.parents]: the proper ancestors, nearest first. *)
Definition parents (p : t) : list t :=
  (λ k, mk (anchor p) (take k (parts p))) <$> reverse (seq 0 (length (parts p))).

(** [p.relative_to(other)]; [None] stands for the [ValueError] raised
    when [other] is not a prefix of [p]. *)
Definition relative_to (p other : t) : option t :=
  if decide (anchor p = anchor other ∧ parts other `prefix_of` parts p)
  then Some (mk "" (drop (length (parts other)) (parts p)))
  else None.

(** [str(p)] with the separator [sep] of the platform. *)
Definition str (sep : string) (p : t) : string :=
  match anchor p, parts p with
  | "", [] => "."
  | a, ps => a +:+ join sep ps
  end.

(** [PurePosixPath(s)]: components are separated by slashes, empty and
    [.] components are dropped, [..] is kept. *)
Definition of_posix (s : string) : t :=
  mk (if String.prefix "/" s then "/" else "")
     (filter (λ c, c ≠ "" ∧ c ≠ ".") (split "/" s)).

End Path.

Abbreviation Path := Path.t.

(** ** Exceptions *)

(** The result of an operation that may raise. The program never looks at
    the exception it catches, so [Raise] carries none. *)
Inductive outcome (A : Type) : Type :=
| Ok (a : A)
| Raise.
Arguments Ok {A} a.
Arguments Raise {A}.

Definition obind {A B} (c : outcome A) (k : A → outcome B) : outcome B :=
  match c with
  | Ok a => k a
  | Raise => Raise
  end.

Notation "x ←! c ; k" := (obind c (λ x, k))
  (at level 20, c at level 100, k at level 200, right associativity,
   format "x  ←!  c ;  '/' k").

(** [try: return c / except Exception: return d] *)
Definition try_except {A} (c : outcome A) (d : A) : A :=
  match c with
  | Ok a => a
  | Raise => d
  end.

(** ** Syntax trees *)

(** The nodes of Python's [ast] that the program tells apart; every other
    kind of node is [Other] with its child nodes. *)

Inductive constant :=
| CStr (s : string)
| CBytes (b : string)
| CInt (z : Z)
| CBool (b : bool)
| CNone
| CEllipsis.

(** [ast.alias] *)
Record alias := { alias_name : string; asname : option string }.

Inductive node :=
| Module_ (body : list node)
| Import (names : list alias)
| ImportFrom (module : option string) (names : list alias) (level : nat)
| Call (func : node) (args : list node) (keywords : list (option string * node))
| Attribute (value : node) (attr : string)
| Name (id : string)
| Constant (value : constant)
| Other (kind : string) (fields : list node).

(** [ast.iter_child_nodes]. The [alias], [keyword] and expression context
    nodes are left out: they match none of the tests of the program, and
    only a [keyword] has a child, its value, which is listed here. *)
Definition children (n : node) : list node :=
  match n with
  | Module_ body => body
  | Call func args keywords => func :: args ++ keywords.*2
  | Attribute value _ => [value]
  | Other _ fields => fields
  | Import _ | ImportFrom _ _ _ | Name _ | Constant _ => []
  end.

Fixpoint node_size (n : node) : nat :=
  S match n with
    | Module_ body => list_sum (map node_size body)
    | Call func args keywords =>
        node_size func + list_sum (map node_size args)
        + list_sum (map (λ kw, node_size kw.2) keywords)
    | Attribute value _ => node_size value
    | Other _ fields => list_sum (map node_size fields)
    | Import _ | ImportFrom _ _ _ | Name _ | Constant _ => 0
    end.

(** [ast.walk]: breadth first, with a queue. Each step takes one node
    from the queue, so the size of the tree is enough fuel. *)
Fixpoint walk_queue (fuel : nat) (todo : list node) : list node :=
  match fuel, todo with
  | S fuel, n :: todo => n :: walk_queue fuel (todo ++ children n)
  | _, _ => []
  end.

Definition walk (tree : node) : list node :=
  walk_queue (node_size tree) [tree].

(** The fuel that a queue needs. *)
Definition queue_size (todo : list node) : nat :=
  list_sum (node_size <$> todo).

(** [n] occurs in [tree]. *)
Inductive subnode (n : node) : node → Prop :=
| subnode_refl : subnode n n
| subnode_child c t : subnode n c → c ∈ children t → subnode n t.

(** ** The environment *)

Inductive FileKind := RegularFile | Directory | OtherKind.

#[global] Instance FileKind_eq_dec : EqDecision FileKind.
Proof. solve_decision. Defined.

(** A snapshot of the file system, as seen through [pathlib]. Resolving
    a path is not strict: it returns a path whether the file exists or
    not. *)
Record FileSystem := {
  (** what [os.stat] finds at a path, symbolic links followed *)
  stat : Path → option FileKind;
  (** [p.resolve()] *)
  resolve : Path → Path;
  (** [p.read_text(encoding="utf-8", errors="ignore")] *)
  read_text : Path → outcome string;
  (** [list(p.rglob("*.py"))] *)
  rglob_py : Path → list Path;
}.

Definition exists_ (fs : FileSystem) (p : Path) : bool :=
  bool_decide (is_Some (stat fs p)).
Definition is_file (fs : FileSystem) (p : Path) : bool :=
  bool_decide (stat fs p = Some RegularFile).
Definition is_dir (fs : FileSystem) (p : Path) : bool :=
  bool_decide (stat fs p = Some Directory).

(** [importlib.machinery.ModuleSpec], of which the program reads [origin]. *)
Record ModuleSpec := { origin : option string }.

(** The running interpreter and its platform. *)
Record Interpreter := {
  os_name : string;
  sys_executable : string;
  (** [Path(s)] in the path flavour of the platform *)
  Path_of_str : string → Path;
  (** [ast.parse], which raises on a syntax error *)
  ast_parse : string → outcome node;
  (** [m.group("path")] for each [m] of [FILE_EXT_PATTERN.finditer(src)] *)
  FILE_EXT_PATTERN_finditer : string → list string;
  (** [importlib.util.find_spec] *)
  find_spec : string → outcome (option ModuleSpec);
  (** [sysconfig.get_paths()["stdlib"]] *)
  sysconfig_stdlib : outcome string;
}.

Definition os_sep (py : Interpreter) : string :=
  if String.eqb (os_name py) "nt" then "\" else "/".

Definition data_sep (py : Interpreter) : string :=
  if String.eqb (os_name py) "nt" then ";" else ":".

Definition quote_path (py : Interpreter) (p : Path) : string :=
  Path.str (os_sep py) p.

(** ** Module classifier *)

Section Classifier.
Context (fs : FileSystem) (py : Interpreter).

(** The body of the [try] block of [is_third_party]. *)
Definition locate_outside_stdlib (m : string) : outcome bool :=
  spec ←! find_spec py m;
  match spec with
  | None => Ok false
  | Some spec =>
      match origin spec with
      | None => Ok false
      | Some o =>
          if String.eqb o "built-in" then Ok false
          else
            dir ←! sysconfig_stdlib py;
            let stdlib_path := resolve fs (Path_of_str py dir) in
            let origin := resolve fs (Path_of_str py o) in
            Ok (bool_decide (stdlib_path ∉ Path.parents origin)
                && bool_decide (origin ≠ stdlib_path))
      end
  end.

Definition is_third_party (mod_name : string) (stdlib : gset string)
    (pkg_map : gmap string (list string)) : bool :=
  let m := top_level_module mod_name in
  if negb (truthy m) || bool_decide (m ∈ stdlib) then false
  else if bool_decide (m ∈ dom pkg_map) then true
  else try_except (locate_outside_stdlib m) true.

End Classifier.

(** ** Source import extractor *)

(** On Python 3.8 and later a string literal is an [ast.Constant] whose
    value is a [str]; the branch for [ast.Str] of older versions is not
    modelled. *)
Definition _extract_str_constant (n : node) : option string :=
  match n with
  | Constant (CStr val) => Some val
  | _ => None
  end.

(** The truth value of an optional [str]: [None] and the empty string
    are false. *)
Definition truthy_opt (o : option string) : bool :=
  match o with
  | Some s => truthy s
  | None => false
  end.

(** The name of the callee of a call. *)
Definition func_name (func : node) : string :=
  match func with
  | Attribute _ attr => attr
  | Name id => id
  | _ => ""
  end.

(** The loop over the keywords of a call, [mod_] being the variable it
    assigns; the loop stops at the first value that is true. *)
Fixpoint scan_keywords (keywords : list (option string * node))
    (mod_ : option string) : option string :=
  match keywords with
  | [] => mod_
  | kw :: keywords =>
      if bool_decide (kw.1 ∈ [Some "name"; Some "module"]) then
        let mod_ := _extract_str_constant kw.2 in
        if truthy_opt mod_ then mod_ else scan_keywords keywords mod_
      else scan_keywords keywords mod_
  end.

(** The value of [mod] after the positional and keyword arguments of a
    dynamic import call have been looked at. *)
Definition dynamic_module (args : list node)
    (keywords : list (option string * node)) : option string :=
  let mod_ := match args with
              | arg :: _ => _extract_str_constant arg
              | [] => None
              end in
  match mod_ with
  | None => scan_keywords keywords None
  | Some _ => mod_
  end.

(** The body of the loop over [ast.walk(tree)]: the state is the pair of
    the sets [imports] and [dynamic]. Nothing in the branch of a call can
    raise, so its [try] is transparent. *)
Definition visit (st : gset string * gset string) (n : node)
    : gset string * gset string :=
  let '(imports, dynamic) := st in
  match n with
  | Import names =>
      (foldl (λ imports a,
                if truthy (alias_name a)
                then {[top_level_module (alias_name a)]} ∪ imports
                else imports) imports names,
       dynamic)
  | ImportFrom module _ _ =>
      if truthy_opt module
      then ({[top_level_module (default "" module)]} ∪ imports, dynamic)
      else st
  | Call func args keywords =>
      if bool_decide (func_name func ∈ ["import_module"; "__import__"]) then
        let mod_ := dynamic_module args keywords in
        if truthy_opt mod_
        then (imports, {[top_level_module (default "" mod_)]} ∪ dynamic)
        else st
      else st
  | _ => st
  end.

Section Scanner.
Context (fs : FileSystem) (py : Interpreter).

(** Reading and parsing are the only steps that raise, and they come
    before the first update of the sets: when they fail, both sets are
    returned empty. *)
Definition parse_imports_from_file (py_file : Path)
    : gset string * gset string :=
  try_except
    (src ←! read_text fs py_file;
     tree ←! ast_parse py src;
     Ok (foldl visit (∅, ∅) (walk tree)))
    (∅, ∅).

(** ** Literal file reference extractor *)

(** One match of the pattern. Once the candidate is known to be a
    regular file, every path through the rest of the loop body adds
    it. *)
Definition literal_file_step (py_file : Path) (found : gset Path)
    (raw : string) : gset Path :=
  if negb (truthy raw) then found
  else
    let candidate := Path_of_str py (replace_double_backslash raw) in
    let candidate :=
      if negb (Path.is_absolute candidate)
      then resolve fs (Path.joinpath (Path.parent py_file) candidate)
      else candidate in
    if exists_ fs candidate && is_file fs candidate
    then {[candidate]} ∪ found
    else found.

Definition find_literal_files (py_file project_root : Path) : gset Path :=
  try_except
    (src ←! read_text fs py_file;
     Ok (foldl (literal_file_step py_file) ∅
               (FILE_EXT_PATTERN_finditer py src)))
    ∅.

(** ** Project scanner *)

Record ScanResult := {
  project_root : Path;
  imports : gset string;
  dynamic_imports : gset string;
  literal_files : gset Path;
}.

(** The list [files] before it is turned into a set. *)
Definition collect_files (script_path : Path) (scan_all_py : bool)
    : list Path :=
  let project_root := resolve fs (Path.parent script_path) in
  [script_path]
  ++ (if scan_all_py
      then resolve fs <$> filter (λ p, is_file fs p = true)
                                 (rglob_py fs project_root)
      else []).

(** [set(files)] *)
Definition files_to_scan (script_path : Path) (scan_all_py : bool)
    : gset Path :=
  list_to_set (collect_files script_path scan_all_py).

Definition scan_file (project_root : Path) (r : ScanResult) (f : Path)
    : ScanResult :=
  let '(imps, dyn) := parse_imports_from_file f in
  {| project_root := project_root;
     imports := imports r ∪ imps;
     dynamic_imports := dynamic_imports r ∪ dyn;
     literal_files := literal_files r ∪ find_literal_files f project_root |}.

Definition scan_project (script_path : Path) (scan_all_py : bool)
    : ScanResult :=
  let project_root := resolve fs (Path.parent script_path) in
  foldl (scan_file project_root)
        {| project_root := project_root; imports := ∅;
           dynamic_imports := ∅; literal_files := ∅ |}
        (elements (files_to_scan script_path scan_all_py)).

(** ** Data and path mapper *)

(** The destination of one resolved path: the [try] block around
    [relative_to] and its [except] branch. The assignment of [.] to a
    destination that is [.] changes nothing, and the [except] branch takes
    the name of the path whether it is a file or not. *)
Definition destination (p project_root : Path) : string :=
  match Path.relative_to p project_root with
  | Some rel =>
      if is_file fs p then Path.str (os_sep py) (Path.parent rel)
      else Path.str (os_sep py) rel
  | None => Path.name p
  end.

Definition map_add_data_entries (paths : list Path) (project_root : Path)
    : list (Path * string) :=
  foldl (λ mapped p,
           let p := resolve fs p in
           mapped ++ [(p, destination p project_root)])
        [] paths.

(** ** Assembling the data mappings *)

Definition AUTO_DATA_DIRS : list string :=
  ["assets"; "data"; "resources"; "templates"; "static"; "config";
   "images"; "locale"].

Definition auto_data_dirs (project_root : Path) : list (Path * string) :=
  foldl (λ datas name,
           let d := Path.joinpath project_root (Path_of_str py name) in
           if exists_ fs d && is_dir fs d then datas ++ [(d, name)] else datas)
        [] AUTO_DATA_DIRS.

(** [for t in entries: if t not in result: result.append(t)] *)
Definition append_new (result entries : list (Path * string))
    : list (Path * string) :=
  foldl (λ result t,
           if bool_decide (t ∈ result) then result else result ++ [t])
        result entries.

(** The method [_assemble_datas] of the window, as a function of the
    fields it reads: the path of the script, the mappings added by hand,
    the literal files of the last analysis and the choice of automatic
    data directories. *)
Definition _assemble_datas (script_var : string)
    (manual_datas : list (Path * string))
    (detected_literal_files : gset Path) (auto_data_dirs_var : bool)
    : list (Path * string) :=
  let script := resolve fs (Path_of_str py script_var) in
  let project_root := Path.parent script in
  let result := [] ++ manual_datas in
  let mapped_literal :=
    map_add_data_entries (elements detected_literal_files) project_root in
  let result := append_new result mapped_literal in
  if auto_data_dirs_var
  then append_new result (auto_data_dirs project_root)
  else result.

(** ** Command assembler *)

(** The arguments of [build_command]. *)
Record BuildSpec := {
  script_path : Path;
  name : option string;
  onefile : bool;
  windowed : bool;
  clean : bool;
  icon_path : option Path;
  add_datas : list (Path * string);
  hidden_imports : list string;
  collect_all_pkgs : list string;
  extra_paths : option (list Path);
  noconfirm : bool;
  version_file : option Path;
  noupx : bool;
  runtime_tmpdir : option string;
}.

Definition build_command (b : BuildSpec) : list string :=
  let cmd := [sys_executable py; "-m"; "PyInstaller"] in
  let cmd := if clean b then cmd ++ ["--clean"] else cmd in
  let cmd := if noconfirm b then cmd ++ ["--noconfirm"] else cmd in
  let cmd := cmd ++ [if onefile b then "--onefile" else "--onedir"] in
  let cmd := if windowed b then cmd ++ ["--windowed"] else cmd in
  let cmd := if truthy_opt (name b)
             then cmd ++ ["--name"; default "" (name b)] else cmd in
  let cmd := match icon_path b with
             | Some icon =>
                 if exists_ fs icon
                 then cmd ++ ["--icon"; quote_path py icon] else cmd
             | None => cmd
             end in
  let cmd := foldl (λ cmd pd,
                      cmd ++ ["--add-data";
                              quote_path py pd.1 +:+ data_sep py +:+ pd.2])
                   cmd (add_datas b) in
  let cmd := foldl (λ cmd hi, cmd ++ ["--hidden-import"; hi])
                   cmd (hidden_imports b) in
  let cmd := foldl (λ cmd pkg, cmd ++ ["--collect-all"; pkg])
                   cmd (collect_all_pkgs b) in
  let cmd := match extra_paths b with
             | Some (ep :: eps) =>
                 foldl (λ cmd ep, cmd ++ ["--paths"; quote_path py ep])
                       cmd (ep :: eps)
             | _ => cmd
             end in
  let cmd := if noupx b then cmd ++ ["--noupx"] else cmd in
  let cmd := if truthy_opt (runtime_tmpdir b)
             then cmd ++ ["--runtime-tmpdir"; default "" (runtime_tmpdir b)]
             else cmd in
  let cmd := match version_file b with
             | Some vf =>
                 if exists_ fs vf
                 then cmd ++ ["--version-file"; quote_path py vf] else cmd
             | None => cmd
             end in
  cmd ++ [quote_path py (script_path b)].

End Scanner.

(** ** A sample project

    A POSIX machine whose working directory is [/proj]. The project holds
    [main.py], [imports_only.py], [empty_name.py], a file [broken.py] that
    does not parse, [data/config.json] and the directories [data],
    [assets] and [assets.json]; outside the project there is
    [/etc/passwd]. The sources are given with the syntax trees and the
    pattern matches that the [ast] and [re] libraries produce for them. *)

Module Sample.

Definition at_root (ps : list string) : Path := Path.mk "/" ps.

Definition cwd : Path := at_root ["proj"].
Definition main_py : Path := at_root ["proj"; "main.py"].
Definition imports_only_py : Path := at_root ["proj"; "imports_only.py"].
Definition empty_name_py : Path := at_root ["proj"; "empty_name.py"].
Definition broken_py : Path := at_root ["proj"; "broken.py"].
Definition config_json : Path := at_root ["proj"; "data"; "config.json"].
Definition data_dir : Path := at_root ["proj"; "data"].
Definition passwd : Path := at_root ["etc"; "passwd"].

(** The entry script as it is typed in the working directory. *)
Definition typed_script : Path := Path.mk "" ["main.py"].

Definition main_src : string :=
  "import os.path; import requests; from . import helper; "
  +:+ "from yaml.loader import Loader; "
  +:+ "importlib.import_module('plugins.core'); "
  +:+ "__import__(name='numpy.linalg'); importlib.import_module(pick()); "
  +:+ "open('data/config.json'); open('missing.txt'); open('assets.json')".

Definition imports_only_src : string :=
  "import os.path, json as js; from requests.adapters import HTTPAdapter; "
  +:+ "from . import helper; import os".

Definition empty_name_src : string := "importlib.import_module('')".

Definition broken_src : string := "def (".

Definition call_stmt (c : node) : node := Other "Expr" [c].

Definition import_module : node := Attribute (Name "importlib") "import_module".

Definition main_tree : node :=
  Module_
    [ Import [{| alias_name := "os.path"; asname := None |}];
      Import [{| alias_name := "requests"; asname := None |}];
      ImportFrom None [{| alias_name := "helper"; asname := None |}] 1;
      ImportFrom (Some "yaml.loader")
                 [{| alias_name := "Loader"; asname := None |}] 0;
      call_stmt (Call import_module [Constant (CStr "plugins.core")] []);
      call_stmt (Call (Name "__import__") []
                      [(Some "name", Constant (CStr "numpy.linalg"))]);
      call_stmt (Call import_module [Call (Name "pick") [] []] []);
      call_stmt (Call (Name "open") [Constant (CStr "data/config.json")] []);
      call_stmt (Call (Name "open") [Constant (CStr "missing.txt")] []);
      call_stmt (Call (Name "open") [Constant (CStr "assets.json")] []) ].

Definition imports_only_body : list node :=
  [ Import [{| alias_name := "os.path"; asname := None |};
            {| alias_name := "json"; asname := Some "js" |}];
    ImportFrom (Some "requests.adapters")
               [{| alias_name := "HTTPAdapter"; asname := None |}] 0;
    ImportFrom None [{| alias_name := "helper"; asname := None |}] 1;
    Import [{| alias_name := "os"; asname := None |}] ].

Definition empty_name_call : node :=
  Call import_module [Constant (CStr "")] [].

Definition empty_name_tree : node := Module_ [call_stmt empty_name_call].

Definition parse (src : string) : outcome node :=
  if String.eqb src main_src then Ok main_tree
  else if String.eqb src imports_only_src then Ok (Module_ imports_only_body)
  else if String.eqb src empty_name_src then Ok empty_name_tree
  else Raise.

Definition finditer (src : string) : list string :=
  if String.eqb src main_src
  then ["data/config.json"; "missing.txt"; "assets.json"]
  else [].

Definition lookup_spec (m : string) : outcome (option ModuleSpec) :=
  if String.eqb m "requests"
  then Ok (Some {| origin :=
                     Some "/usr/lib/python3/dist-packages/requests/__init__.py" |})
  else if String.eqb m "sys" then Ok (Some {| origin := Some "built-in" |})
  else if String.eqb m "helper" then Ok None
  else Raise.

Definition py : Interpreter :=
  {| os_name := "posix";
     sys_executable := "/usr/bin/python3";
     Path_of_str := Path.of_posix;
     ast_parse := parse;
     FILE_EXT_PATTERN_finditer := finditer;
     find_spec := lookup_spec;
     sysconfig_stdlib := Ok "/usr/lib/python3.12" |}.

(** A relative path is resolved against the working directory; the
    sample has no symbolic links and no [..] components. *)
Definition resolve_ (p : Path) : Path := Path.joinpath cwd p.

Definition files : list (Path * string) :=
  [ (main_py, main_src);
    (imports_only_py, imports_only_src);
    (empty_name_py, empty_name_src);
    (broken_py, broken_src);
    (config_json, "{}");
    (passwd, "root:x:0:0") ].

Definition directories : list Path :=
  [ at_root []; cwd; data_dir; at_root ["etc"];
    at_root ["proj"; "assets"]; at_root ["proj"; "assets.json"] ].

Definition content (p : Path) : option string :=
  snd <$> List.find (λ e, bool_decide (e.1 = resolve_ p)) files.

Definition fs : FileSystem :=
  {| stat := λ p,
       if bool_decide (resolve_ p ∈ directories) then Some Directory
       else if bool_decide (is_Some (content p)) then Some RegularFile
       else None;
     resolve := resolve_;
     read_text := λ p, from_option Ok Raise (content p);
     rglob_py := λ p,
       if bool_decide (resolve_ p = cwd)
       then [main_py; imports_only_py; empty_name_py; broken_py]
       else [] |}.

End Sample.

(** ** The vocabulary of the specification *)

(** A module name of the data model: identifiers separated by dots, so
    that no segment is empty. *)
Definition dotted (s : string) : Prop :=
  Forall (λ seg, seg ≠ "") (split "." s).

#[global] Instance dotted_dec s : Decision (dotted s).
Proof. unfold dotted. apply _. Defined.

Definition is_str_literal (n : node) : Prop := ∃ s, n = Constant (CStr s).

Definition dynamic_import_names : list string := ["import_module"; "__import__"].

(** The literal that names the module of a dynamic import call: the first
    positional argument when it is a string literal that is not empty;
    when there is no positional argument, or the first is not a string
    literal, the first keyword [name] or [module] whose value is a string
    literal that is not empty. *)
Inductive literal_module (args : list node)
    (keywords : list (option string * node)) (s : string) : Prop :=
| literal_positional rest :
    args = Constant (CStr s) :: rest →
    s ≠ "" →
    literal_module args keywords s
| literal_keyword before arg after :
    (∀ a, head args = Some a → ¬ is_str_literal a) →
    keywords = before ++ (arg, Constant (CStr s)) :: after →
    arg ∈ [Some "name"; Some "module"] →
    s ≠ "" →
    Forall (λ kw : option string * node,
              kw.1 ∈ [Some "name"; Some "module"] →
              ∀ s', kw.2 = Constant (CStr s') → s' = "") before →
    literal_module args keywords s.

(** A static import statement. *)
Definition import_statement (n : node) : Prop :=
  match n with
  | Import _ | ImportFrom _ _ _ => True
  | _ => False
  end.

(** What Python's grammar ensures of an import statement: the names are
    not empty. *)
Definition grammatical (n : node) : Prop :=
  match n with
  | Import names => Forall (λ a, alias_name a ≠ "") names
  | ImportFrom (Some m) _ _ => m ≠ ""
  | _ => True
  end.

(** The top-level name of a module name: what stands before its first
    dot, the whole name when it has no dot. *)
Fixpoint top_level_name (s : string) : string :=
  match s with
  | EmptyString => EmptyString
  | String c rest =>
      if Ascii.eqb c "." then EmptyString else String c (top_level_name rest)
  end.

(** The modules that one statement refers to: [import X.Y] refers to
    [X], [from X.Y import z] to [X], and [from . import z] to none. *)
Definition referenced_by (n : node) : gset string :=
  match n with
  | Import names => list_to_set ((λ a, top_level_name (alias_name a)) <$> names)
  | ImportFrom (Some m) _ _ => {[top_level_name m]}
  | _ => ∅
  end.

Definition referenced_modules (body : list node) : gset string :=
  ⋃ (referenced_by <$> body).

(** The byte order mark [U+FEFF] with which a file of UTF-8 text may
    start, as the three bytes of its encoding. *)
Definition BOM : string :=
  String (ascii_of_nat 239) (String (ascii_of_nat 187)
    (String (ascii_of_nat 191) EmptyString)).

(** The program of a source file: Python skips a byte order mark at the
    start of a file that it compiles. *)
Definition program_text (content : string) : string :=
  if String.prefix BOM content
  then String.substring 3 (String.length content - 3) content
  else content.

Section Vocabulary.
Context (fs : FileSystem) (py : Interpreter).


(** The argument list in the words of the specification: one segment
    per item, in the order in which the specification lists them. A name
    or a temporary directory is given when it is a string that is not
    empty. *)
Definition ordered_arguments (b : BuildSpec) : list string :=
  concat
    [ [sys_executable py; "-m"; "PyInstaller"];
      if clean b then ["--clean"] else [];
      if noconfirm b then ["--noconfirm"] else [];
      if onefile b then ["--onefile"] else ["--onedir"];
      if windowed b then ["--windowed"] else [];
      match name b with
      | Some n => if truthy n then ["--name"; n] else []
      | None => []
      end;
      match icon_path b with
      | Some icon =>
          if exists_ fs icon then ["--icon"; quote_path py icon] else []
      | None => []
      end;
      concat ((λ m, ["--add-data";
                     quote_path py m.1
                     +:+ (if String.eqb (os_name py) "nt" then ";" else ":")
                     +:+ m.2]) <$> add_datas b);
      concat ((λ hi, ["--hidden-import"; hi]) <$> hidden_imports b);
      concat ((λ pkg, ["--collect-all"; pkg]) <$> collect_all_pkgs b);
      concat ((λ ep, ["--paths"; quote_path py ep])
                <$> default [] (extra_paths b));
      if noupx b then ["--noupx"] else [];
      match runtime_tmpdir b with
      | Some d => if truthy d then ["--runtime-tmpdir"; d] else []
      | None => []
      end;
      match version_file b with
      | Some vf =>
          if exists_ fs vf then ["--version-file"; quote_path py vf] else []
      | None => []
      end;
      [quote_path py (script_path b)] ].

End Vocabulary.

(** ** Two more files of the sample project

    The project of the sample with two more files: [marked.py], a source
    file that starts with a byte order mark, and [link.cfg], a symbolic
    link to the file [/srv/shared.cfg] outside the project. *)

Module Corners.

Definition marked_py : Path := Sample.at_root ["proj"; "marked.py"].
Definition link_cfg : Path := Sample.at_root ["proj"; "link.cfg"].
Definition shared_cfg : Path := Sample.at_root ["srv"; "shared.cfg"].

Definition plain_src : string := "import os.path".

Definition marked_src : string := BOM +:+ plain_src.

Definition plain_body : list node :=
  [ Import [{| alias_name := "os.path"; asname := None |}] ].

(** [ast.parse] is given the text as it was decoded: with the mark in
    front, the text is no program. *)
Definition parse (src : string) : outcome node :=
  if String.eqb src plain_src then Ok (Module_ plain_body)
  else Sample.parse src.

Definition py : Interpreter :=
  {| os_name := "posix";
     sys_executable := "/usr/bin/python3";
     Path_of_str := Path.of_posix;
     ast_parse := parse;
     FILE_EXT_PATTERN_finditer := Sample.finditer;
     find_spec := Sample.lookup_spec;
     sysconfig_stdlib := Ok "/usr/lib/python3.12" |}.

(** Resolving follows the symbolic link. *)
Definition resolve_ (p : Path) : Path :=
  if bool_decide (Sample.resolve_ p = link_cfg) then shared_cfg
  else Sample.resolve_ p.

Definition files : list (Path * string) :=
  Sample.files ++ [ (marked_py, marked_src); (shared_cfg, "[shared]") ].

Definition directories : list Path :=
  Sample.directories ++ [ Sample.at_root ["srv"] ].

Definition content (p : Path) : option string :=
  snd <$> List.find (λ e, bool_decide (e.1 = resolve_ p)) files.

Definition fs : FileSystem :=
  {| stat := λ p,
       if bool_decide (resolve_ p ∈ directories) then Some Directory
       else if bool_decide (is_Some (content p)) then Some RegularFile
       else None;
     resolve := resolve_;
     read_text := λ p, from_option Ok Raise (content p);
     rglob_py := λ p,
       if bool_decide (resolve_ p = Sample.cwd)
       then [Sample.main_py; Sample.imports_only_py; Sample.empty_name_py;
             Sample.broken_py; marked_py]
       else [] |}.

End Corners.

(** ** More of the program

    The functions below read the characters of a string. The classes
    of characters are those of the code points below 256: the decimal
    digits are [0] to [9] and the white space is the white space of
    Latin-1. Python knows more decimal digits than these; what is proved
    of separators and of strings without a digit is proved of ASCII
    text. *)

(** [c.isspace()] *)
Definition isspace (c : ascii) : bool :=
  let n := N_of_ascii c in
  ((9 <=? n) && (n <=? 13) || (28 <=? n) && (n <=? 32)
   || (n =? 133) || (n =? 160))%N.

(** A character that [\d] matches. *)
Definition isdigit (c : ascii) : bool :=
  let n := N_of_ascii c in ((48 <=? n) && (n <=? 57))%N.

Fixpoint lstrip (s : string) : string :=
  match s with
  | String c rest => if isspace c then lstrip rest else s
  | EmptyString => EmptyString
  end.

Fixpoint rstrip (s : string) : string :=
  match s with
  | EmptyString => EmptyString
  | String c rest =>
      match rstrip rest with
      | EmptyString => if isspace c then EmptyString else String c EmptyString
      | rest' => String c rest'
      end
  end.

(** [s.strip()] *)
Definition strip (s : string) : string := rstrip (lstrip s).

(** [sorted(s)] for a set of strings: strings compare by code points. The
    sorted list of a set is unique, whatever the algorithm. *)
Definition sorted (s : gset string) : list string :=
  merge_sort String.le (elements s).

(** *** Heavy dependencies *)

Definition HEAVY_LIBS : gset string :=
  list_to_set
    ["matplotlib"; "sklearn"; "cv2"; "PIL"; "Pillow"; "nltk"; "spacy";
     "torch"; "transformers"; "openpyxl"; "pydantic"; "jinja2"; "yaml";
     "cryptography"; "numba"; "scipy"].

Definition suggest_collect_all (imports : gset string) : list string :=
  sorted
    (foldl (λ s m,
              let root := top_level_module m in
              if bool_decide (root ∈ HEAVY_LIBS)
              then {[if negb (String.eqb root "PIL") then root else "Pillow"]} ∪ s
              else s)
           ∅ (elements imports)).

(** *** The hidden imports of the window *)

(** The method [_assemble_hidden_imports], as a function of the three
    fields it reads. *)
Definition _assemble_hidden_imports (detected_imports detected_dynamic : gset string)
    (manual_hidden : list string) : list string :=
  sorted (detected_imports ∪ detected_dynamic ∪ list_to_set manual_hidden).

(** The method [_remove_selected_imports]: [items] are the selected
    lines of the list, and the new value of [detected_imports] is
    returned. A name that the set does not hold raises [KeyError], which
    is caught. *)
Definition _remove_selected_imports (items : list string)
    (detected_imports : gset string) : gset string :=
  foldl (λ detected it, detected ∖ {[it]}) detected_imports items.

(** *** The environment of child processes *)

(** [env] is [None] when the argument is left out: the function then
    works on a copy of [os.environ]. The dictionary is updated in place
    and returned; the model returns its new value. *)
Definition _with_peutils_syntaxwarning_filter_env
    (os_environ : gmap string string) (env : option (gmap string string))
    : gmap string string :=
  let env := default os_environ env in
  let rule := "ignore::SyntaxWarning:peutils" in
  let existing := default "" (env !! "PYTHONWARNINGS") in
  if truthy existing then
    let parts :=
      filter (λ p, truthy p = true) (strip <$> split "," existing) in
    if bool_decide (rule ∈ parts) then env
    else <["PYTHONWARNINGS" := existing +:+ "," +:+ rule]> env
  else <["PYTHONWARNINGS" := rule]> env.

(** *** Version numbers *)

(** [re.split(r"[^\d]+", s)]: the pieces of [s] between the maximal runs
    of characters that are not digits; [in_sep] tells that the character
    before was in such a run. *)
Fixpoint re_split_non_digits (in_sep : bool) (s : string) : list string :=
  match s with
  | EmptyString => [""]
  | String c rest =>
      if isdigit c then
        match re_split_non_digits false rest with
        | piece :: pieces => String c piece :: pieces
        | [] => [String c ""]
        end
      else if in_sep then re_split_non_digits true rest
      else "" :: re_split_non_digits true rest
  end.

(** [int(x)] for a string of decimal digits, which the pieces of the
    split are. The interpreter refuses a string of more than
    [max_str_digits] digits when that limit is not zero
    ([sys.get_int_max_str_digits()], 4300 by default since Python 3.11). *)
Definition int_of_digits (max_str_digits : nat) (x : string) : outcome N :=
  if (0 <? max_str_digits) && (max_str_digits <? String.length x) then Raise
  else if truthy x then
    match NilEmpty.uint_of_string x with
    | Some d => Ok (N.of_uint d)
    | None => Raise
    end
  else Raise.

(** A list comprehension whose expression may raise. *)
Fixpoint traverse {A B} (f : A → outcome B) (l : list A) : outcome (list B) :=
  match l with
  | [] => Ok []
  | x :: l => y ←! f x; ys ←! traverse f l; Ok (y :: ys)
  end.

(** The static method [_parse_version_tuple]; the tuple is the list of
    its components. *)
Definition _parse_version_tuple (max_str_digits : nat) (s : string)
    : outcome (list N) :=
  let parts :=
    take 4 (filter (λ p, truthy p = true) (re_split_non_digits false s)) in
  nums ←! traverse (int_of_digits max_str_digits) (take 4 parts);
  Ok (take 4 (nums ++ [0; 0; 0; 0]%N)).

(** [str(n)] for an integer that is not negative. *)
Definition str_of_N (n : N) : string := NilEmpty.string_of_uint (N.to_uint n).

Section Analysis.
Context (fs : FileSystem) (py : Interpreter).

(** *** The analysis of the window *)

(** What [_analyze] stores in the window. *)
Record Analysis := {
  detected_imports : gset string;
  detected_dynamic : gset string;
  detected_literal_files : gset Path;
  detected_collect_all : list string;
}.

(** [for m in sorted(names): if is_third_party(m, stdlib, pkg_map):
    out.add(m)] *)
Definition third_party_among (names : gset string) (stdlib : gset string)
    (pkg_map : gmap string (list string)) : gset string :=
  foldl (λ out m,
           if is_third_party fs py m stdlib pkg_map then {[m]} ∪ out else out)
        ∅ (sorted names).

(** The method [_analyze], as a function of the fields it reads, of the
    set [stdlib] that [get_stdlib_modules()] returns and of the map
    [pkg_map] that [packages_distributions_map()] returns. The result is
    [None] when the method shows its error and returns before the scan. *)
Definition _analyze (script_var : string) (scan_all_var : bool)
    (stdlib : gset string) (pkg_map : gmap string (list string))
    : option Analysis :=
  let script := if truthy (strip script_var)
                then Some (Path_of_str py (strip script_var)) else None in
  match script with
  | None => None
  | Some script =>
      if negb (exists_ fs script) then None
      else
        let res := scan_project fs py script scan_all_var in
        let third_party := third_party_among (imports res) stdlib pkg_map in
        let dynamic := third_party_among (dynamic_imports res) stdlib pkg_map in
        Some {| detected_imports := third_party;
                detected_dynamic := dynamic;
                detected_literal_files := literal_files res;
                detected_collect_all :=
                  suggest_collect_all (third_party ∪ dynamic) |}
  end.

End Analysis.

(** The path that a match of the pattern stands for: an absolute match
    as it is written, a relative match resolved against the directory of
    the file. *)
Definition literal_candidate (fs : FileSystem) (py : Interpreter)
    (py_file : Path) (raw : string) : Path :=
  let candidate := Path_of_str py (replace_double_backslash raw) in
  if Path.is_absolute candidate then candidate
  else resolve fs (Path.joinpath (Path.parent py_file) candidate).

(** A character of ASCII that is no decimal digit: what the pattern
    [[^\d]] matches among the characters of ASCII. *)
Definition ascii_non_digit (c : ascii) : bool :=
  (N_of_ascii c <? 128)%N && negb (isdigit c).

(** Every character of the string passes the test. *)
Fixpoint all_chars (test : ascii → bool) (s : string) : bool :=
  match s with
  | EmptyString => true
  | String c rest => test c && all_chars test rest
  end.

(** ** The window on the sample project

    The state of the window after the analysis of [/proj/main.py] with
    the scan of the whole project, for an environment in which [os] and
    [sys] are the standard library and [yaml] is an installed package. *)

Module SampleWindow.

Definition stdlib : gset string := {["os"; "sys"]}.

Definition pkg_map : gmap string (list string) := {["yaml" := ["PyYAML"]]}.

Definition analysis : Analysis :=
  {| detected_imports := {["json"; "requests"; "yaml"]};
     detected_dynamic := {["numpy"; "plugins"]};
     detected_literal_files := {[Sample.config_json]};
     detected_collect_all := ["yaml"] |}.

Definition manual_datas : list (Path * string) :=
  [(Sample.passwd, "."); (Sample.data_dir, "data")].

Definition environ : gmap string string :=
  {["PATH" := "/usr/bin"; "PYTHONWARNINGS" := "error, default::UserWarning"]}.

End SampleWindow.

(** ** The lists of the window *)

(** [l.remove(x)] for the first [x] of [l] that passes the test; the
    list is left as it is when none does. *)
Fixpoint remove_first {A} (test : A → bool) (l : list A) : list A :=
  match l with
  | [] => []
  | x :: l => if test x then l else x :: remove_first test l
  end.

Section Window.
Context (fs : FileSystem) (py : Interpreter).

(** The method [_add_extra_path]: [d] is the directory that the dialog
    returns, the empty string when it is cancelled; the new value of
    [extra_paths] is returned. *)
Definition _add_extra_path (d : string) (extra_paths : list Path)
    : list Path :=
  if truthy d then
    let p := resolve fs (Path_of_str py d) in
    if negb (bool_decide (p ∈ extra_paths)) then extra_paths ++ [p]
    else extra_paths
  else extra_paths.

(** The line that [_refresh_datas_list] shows for a mapping added by
    hand. *)
Definition datas_line (t : Path * string) : string :=
  Path.str (os_sep py) t.1 +:+ "  ->  " +:+ t.2.

(** The method [_remove_selected_datas]: [items] are the selected lines,
    in the order in which the loop takes them; the new value of
    [manual_datas] is returned. For each line, the first mapping whose
    path, as a string, starts the line is removed. *)
Definition _remove_selected_datas (items : list string)
    (manual_datas : list (Path * string)) : list (Path * string) :=
  foldl (λ manual_datas item,
           remove_first
             (λ t, String.prefix (Path.str (os_sep py) t.1) item)
             manual_datas)
        manual_datas items.

End Window.

(** A decidable proposition about concrete data, settled by evaluation. *)
Ltac by_evaluation :=
  match goal with
  | |- ?P => apply (bool_decide_unpack P); vm_compute; exact I
  end.

(** * Properties *)

(** ** Lists built by appending *)

Section Appending.
Context {A B : Type}.

(** A loop that extends a list by [f x] for each [x] appends the
    concatenation of the pieces. *)
Lemma foldl_extend (f : B → list A) (l : list B) (cmd : list A) :
  foldl (λ cmd x, cmd ++ f x) cmd l = cmd ++ concat (f <$> l).
Proof.
  revert cmd. induction l as [|x l IH]; intros cmd; simpl.
  - by rewrite app_nil_r.
  - by rewrite IH, app_assoc.
Qed.

Lemma concat_singletons (g : B → A) (l : list B) :
  concat ((λ x, [g x]) <$> l) = g <$> l.
Proof. induction l as [|x l IH]; [done|]. by rewrite !fmap_cons, <- IH. Qed.

Lemma cond_extend (c : bool) (cmd piece : list A) :
  (if c then cmd ++ piece else cmd) = cmd ++ (if c then piece else []).
Proof. destruct c; [done | by rewrite app_nil_r]. Qed.

Lemma option_extend (o : option B) (g : B → bool) (f : B → list A)
    (cmd : list A) :
  match o with
  | Some x => if g x then cmd ++ f x else cmd
  | None => cmd
  end
  = cmd ++ match o with
           | Some x => if g x then f x else []
           | None => []
           end.
Proof. destruct o as [x|]; [apply cond_extend | by rewrite app_nil_r]. Qed.

End Appending.

(** ** Command assembler *)

Section Assembler.
Context (fs : FileSystem) (py : Interpreter).

(** C1: for every build specification, [build_command] returns the
    arguments in the fixed order of the specification: the invocation,
    the clean flag, the no-confirm flag, one mode flag, the windowed
    flag, the name, the icon only when its path exists, one data mapping
    per pair with [;] on Windows and [:] elsewhere, the hidden imports,
    the collected packages, the search paths, the no-compression flag,
    the temporary directory, the version file only when it exists; the
    entry script is the last element. *)
Theorem build_command_order (b : BuildSpec) :
  build_command fs py b = ordered_arguments fs py b
  ∧ List.last (build_command fs py b) "" = quote_path py (script_path b).
Proof.
  assert (build_command fs py b = ordered_arguments fs py b) as Heq.
  { unfold build_command, ordered_arguments, data_sep.
    rewrite !foldl_extend, !cond_extend, !(option_extend _ (exists_ fs)).
    destruct (name b) as [n|], (runtime_tmpdir b) as [d|],
      (extra_paths b) as [[|ep eps]|]; simpl truthy_opt; simpl default;
      rewrite ?foldl_extend; simpl concat;
      rewrite ?app_nil_r, <- ?app_assoc; simpl;
      by destruct (onefile b). }
  split; [done|].
  unfold build_command. cbv zeta. apply last_last.
Qed.

End Assembler.

(** ** Walking a syntax tree *)

Lemma node_size_children (n : node) :
  node_size n = S (queue_size (children n)).
Proof.
  unfold queue_size. destruct n; simpl; try done.
  rewrite fmap_app, list_sum_app, <- list_fmap_compose, Nat.add_assoc. done.
Qed.

Lemma queue_size_app (l1 l2 : list node) :
  queue_size (l1 ++ l2) = queue_size l1 + queue_size l2.
Proof. unfold queue_size. by rewrite fmap_app, list_sum_app. Qed.

Lemma queue_size_cons (t : node) (todo : list node) :
  queue_size (t :: todo) = S (queue_size (children t)) + queue_size todo.
Proof. by rewrite <- node_size_children. Qed.

Lemma queue_size_length (todo : list node) : length todo ≤ queue_size todo.
Proof.
  induction todo as [|t todo IH]; [done|].
  rewrite queue_size_cons. simpl. lia.
Qed.

(** With fuel for every node of the queue, the walk yields exactly the
    nodes that occur in a tree of the queue. *)
Lemma walk_queue_elem (fuel : nat) (todo : list node) (n : node) :
  queue_size todo ≤ fuel →
  n ∈ walk_queue fuel todo ↔ ∃ t, t ∈ todo ∧ subnode n t.
Proof.
  revert todo. induction fuel as [|fuel IH]; intros todo Hfuel.
  - pose proof (queue_size_length todo) as Hlen.
    destruct todo as [|t todo]; [|simpl in Hlen; lia].
    split; [by intros ?%elem_of_nil | by intros (t & ?%elem_of_nil & _)].
  - destruct todo as [|t todo]; simpl.
    { split; [by intros ?%elem_of_nil | by intros (t & ?%elem_of_nil & _)]. }
    assert (queue_size (todo ++ children t) ≤ fuel) as Hrest.
    { rewrite queue_size_app. rewrite queue_size_cons in Hfuel. lia. }
    rewrite elem_of_cons, (IH _ Hrest). split.
    + intros [->|(c & [Hc|Hc]%elem_of_app & Hsub)].
      * exists t. split; [left | constructor].
      * exists c. split; [by right | done].
      * exists t. split; [left | by econstructor].
    + intros (t' & [->|Ht']%elem_of_cons & Hsub).
      * destruct Hsub as [|c t Hsub Hc]; [by left|].
        right. exists c. split; [apply elem_of_app; by right | done].
      * right. exists t'. split; [apply elem_of_app; by left | done].
Qed.

(** [ast.walk] yields exactly the nodes of the tree: the fuel is enough. *)
Lemma walk_elem (tree n : node) : n ∈ walk tree ↔ subnode n tree.
Proof.
  unfold walk. rewrite walk_queue_elem.
  - split; [by intros (t & ->%list_elem_of_singleton & ?) |].
    intros ?. exists tree. split; [left | done].
  - rewrite queue_size_cons, node_size_children. unfold queue_size. simpl. lia.
Qed.

(** Nodes without children leave the queue in order. *)
Lemma walk_queue_leaves (fuel : nat) (todo : list node) :
  length todo ≤ fuel →
  Forall (λ n, children n = []) todo →
  walk_queue fuel todo = todo.
Proof.
  revert todo. induction fuel as [|fuel IH]; intros [|t todo] Hlen Hleaf;
    simpl in *; try done; [lia|].
  inversion Hleaf as [|? ? Ht Htodo]; subst.
  rewrite Ht, app_nil_r, IH; [done | lia | done].
Qed.

(** ** Source import extractor *)

Lemma truthy_spec (s : string) : truthy s = true ↔ s ≠ "".
Proof.
  unfold truthy. destruct (String.eqb_spec s ""); simpl; split; congruence.
Qed.

Lemma truthy_false (s : string) : truthy s = false ↔ s = "".
Proof.
  unfold truthy. destruct (String.eqb_spec s ""); simpl; split; congruence.
Qed.

Lemma extract_str_constant_Some (n : node) (s : string) :
  _extract_str_constant n = Some s ↔ n = Constant (CStr s).
Proof.
  destruct n as [| | | | | |[]|]; simpl; split; congruence.
Qed.

Lemma extract_str_constant_None (n : node) :
  _extract_str_constant n = None ↔ ¬ is_str_literal n.
Proof.
  unfold is_str_literal. split.
  - intros Hnone [s ->]. done.
  - intros Hnot. destruct (_extract_str_constant n) as [s|] eqn:He; [|done].
    apply extract_str_constant_Some in He. destruct Hnot. eauto.
Qed.

(** The loop over the keywords finds a literal exactly when some keyword
    [name] or [module] carries one that is not empty, and then returns
    the first. *)
Lemma scan_keywords_found keywords mod_ s :
  scan_keywords keywords mod_ = Some s →
  s ≠ "" →
  mod_ = Some s
  ∨ ∃ before arg after,
      keywords = before ++ (arg, Constant (CStr s)) :: after
      ∧ arg ∈ [Some "name"; Some "module"]
      ∧ Forall (λ kw : option string * node,
                  kw.1 ∈ [Some "name"; Some "module"] →
                  ∀ s', kw.2 = Constant (CStr s') → s' = "") before.
Proof.
  revert mod_. induction keywords as [|[arg value] keywords IH];
    intros mod_ Hscan Hs; simpl in Hscan; [by left|].
  case_bool_decide as Harg; simpl in *.
  - destruct (truthy_opt (_extract_str_constant value)) eqn:Htruthy.
    + right. exists [], arg, keywords.
      apply extract_str_constant_Some in Hscan as ->. by repeat split.
    + destruct (IH _ Hscan Hs) as [Hmod|(before & arg' & after & -> & ? & ?)].
      * rewrite Hmod in Htruthy. simpl in Htruthy.
        apply truthy_false in Htruthy. done.
      * right. exists ((arg, value) :: before), arg', after.
        repeat split; [done|]. constructor; [|done].
        intros _ s' Hvalue. simpl in Hvalue. subst value.
        simpl in Htruthy. by apply truthy_false.
  - destruct (IH _ Hscan Hs) as [Hmod|(before & arg' & after & -> & ? & ?)];
      [by left|].
    right. exists ((arg, value) :: before), arg', after.
    repeat split; [done|]. constructor; [|done]. by intros ?.
Qed.

Lemma scan_keywords_first before arg after mod_ s :
  arg ∈ [Some "name"; Some "module"] →
  s ≠ "" →
  Forall (λ kw : option string * node,
            kw.1 ∈ [Some "name"; Some "module"] →
            ∀ s', kw.2 = Constant (CStr s') → s' = "") before →
  scan_keywords (before ++ (arg, Constant (CStr s)) :: after) mod_ = Some s.
Proof.
  intros Harg Hs Hbefore. revert mod_.
  induction Hbefore as [|[arg' value] before Hkw _ IH]; intros mod_; simpl.
  - rewrite bool_decide_eq_true_2 by done.
    by rewrite (proj2 (truthy_spec s) Hs).
  - case_bool_decide as Harg'; [|done].
    destruct (_extract_str_constant value) as [s'|] eqn:He; simpl; [|done].
    apply extract_str_constant_Some in He.
    rewrite (Hkw Harg' s' He). simpl. apply IH.
Qed.

(** The name that a dynamic import call contributes, in the words of the
    specification. *)
Lemma dynamic_module_literal args keywords s :
  dynamic_module args keywords = Some s ∧ s ≠ ""
  ↔ literal_module args keywords s.
Proof.
  unfold dynamic_module. split.
  - intros [Hmod Hs]. destruct args as [|a rest]; simpl in *.
    + destruct (scan_keywords_found _ _ _ Hmod Hs)
        as [?|(before & arg & after & ? & ? & ?)]; [done|].
      by eapply literal_keyword.
    + destruct (_extract_str_constant a) as [s'|] eqn:He.
      * injection Hmod as ->. apply extract_str_constant_Some in He as ->.
        by eapply literal_positional.
      * destruct (scan_keywords_found _ _ _ Hmod Hs)
          as [?|(before & arg & after & ? & ? & ?)]; [done|].
        eapply literal_keyword; [|done..].
        intros a' [= <-]. by apply extract_str_constant_None.
  - intros [rest -> Hs|before arg after Hhead -> Harg Hs Hbefore]; simpl.
    + done.
    + split; [|done].
      destruct args as [|a rest]; simpl.
      * by apply scan_keywords_first.
      * specialize (Hhead a eq_refl).
        apply extract_str_constant_None in Hhead. rewrite Hhead.
        by apply scan_keywords_first.
Qed.

(** The top-level segment that the code computes, the first piece of
    the name split at its dots, is the top-level name of the vocabulary:
    what stands before the first dot. *)
Lemma top_level_module_name (s : string) :
  top_level_module s = top_level_name s.
Proof.
  unfold top_level_module.
  destruct (truthy s) eqn:Hs; [|by apply truthy_false in Hs as ->].
  clear Hs. induction s as [|c s IH]; simpl; [done|].
  destruct (Ascii.eqb c "."); [done|].
  rewrite <- IH. by destruct (split "." s).
Qed.

(** The loop over the names of an [import] statement. *)
Lemma import_names_acc (names : list alias) (imports : gset string) :
  foldl (λ imports a,
           if truthy (alias_name a)
           then {[top_level_module (alias_name a)]} ∪ imports
           else imports) imports names
  = imports
    ∪ foldl (λ imports a,
               if truthy (alias_name a)
               then {[top_level_module (alias_name a)]} ∪ imports
               else imports) ∅ names.
Proof.
  revert imports. induction names as [|a names IH]; intros imports; simpl.
  - set_solver.
  - rewrite IH. destruct (truthy (alias_name a)).
    + rewrite (IH (_ ∪ ∅)). set_solver.
    + done.
Qed.

Lemma import_names_grammatical (names : list alias) :
  Forall (λ a, alias_name a ≠ "") names →
  foldl (λ imports a,
           if truthy (alias_name a)
           then {[top_level_module (alias_name a)]} ∪ imports
           else imports) (∅ : gset string) names
  = list_to_set ((λ a, top_level_name (alias_name a)) <$> names).
Proof.
  induction 1 as [|a names Ha _ IH]; simpl; [done|].
  rewrite import_names_acc, IH, (proj2 (truthy_spec _) Ha).
  rewrite top_level_module_name. set_solver.
Qed.

(** Visiting a node adds to the two sets and never looks at them. *)
Lemma visit_acc (st : gset string * gset string) (n : node) :
  visit st n = (st.1 ∪ (visit (∅, ∅) n).1, st.2 ∪ (visit (∅, ∅) n).2).
Proof.
  destruct st as [imports dynamic].
  destruct n as [body|names|module names level|func args keywords| | | |];
    simpl; try (f_equal; set_solver).
  - rewrite import_names_acc. f_equal. set_solver.
  - destruct (truthy_opt module); simpl; f_equal; set_solver.
  - case_bool_decide; [|simpl; f_equal; set_solver].
    destruct (truthy_opt _); simpl; f_equal; set_solver.
Qed.

Lemma foldl_visit (l : list node) (st : gset string * gset string) :
  foldl visit st l
  = (st.1 ∪ ⋃ ((λ n, (visit (∅, ∅) n).1) <$> l),
     st.2 ∪ ⋃ ((λ n, (visit (∅, ∅) n).2) <$> l)).
Proof.
  revert st. induction l as [|n l IH]; intros st.
  - destruct st. simpl. f_equal; set_solver.
  - change (foldl visit st (n :: l)) with (foldl visit (visit st n) l).
    rewrite IH, visit_acc, !fmap_cons, !union_list_cons.
    cbn [fst snd]. f_equal; set_solver.
Qed.

(** What one node adds to the dynamic imports. *)
Lemma visit_dynamic (n : node) (m : string) :
  m ∈ (visit (∅, ∅) n).2
  ↔ ∃ func args keywords s,
      n = Call func args keywords
      ∧ func_name func ∈ dynamic_import_names
      ∧ literal_module args keywords s
      ∧ m = top_level_module s.
Proof.
  split.
  - destruct n as [| | module ? ?|func args keywords| | | |]; simpl;
      try set_solver.
    + destruct (truthy_opt module); set_solver.
    + case_bool_decide as Hname; [|set_solver].
      destruct (dynamic_module args keywords) as [s|] eqn:Hmod; simpl;
        [|set_solver].
      destruct (truthy s) eqn:Hs; [|set_solver].
      intros Hm. exists func, args, keywords, s. repeat split; [done| |set_solver].
      apply dynamic_module_literal. split; [done | by apply truthy_spec].
  - intros (func & args & keywords & s & -> & Hname & Hlit & ->). simpl.
    apply dynamic_module_literal in Hlit as [Hmod Hs].
    rewrite bool_decide_eq_true_2 by done.
    rewrite Hmod. simpl. rewrite (proj2 (truthy_spec s) Hs). set_solver.
Qed.

(** What a static import statement adds. *)
Lemma visit_import_statement (n : node) :
  import_statement n →
  grammatical n →
  visit (∅, ∅) n = (referenced_by n, ∅).
Proof.
  destruct n as [|names|[m|] ? ?| | | | |]; simpl; try done.
  - intros _ Hnames. by rewrite import_names_grammatical.
  - intros _ Hm. rewrite (proj2 (truthy_spec m) Hm). simpl.
    rewrite top_level_module_name. f_equal. set_solver.
Qed.

Lemma visit_import_statements (body : list node) :
  Forall import_statement body →
  Forall grammatical body →
  ⋃ ((λ n, (visit (∅, ∅) n).1) <$> body) = referenced_modules body
  ∧ ⋃ ((λ n, (visit (∅, ∅) n).2) <$> body) = ∅.
Proof.
  unfold referenced_modules.
  induction body as [|n body IH]; intros Himports Hgrammar; [done|].
  inversion Himports; inversion Hgrammar; subst.
  destruct IH as [IH1 IH2]; [done..|].
  rewrite !fmap_cons, !union_list_cons, IH1, IH2.
  rewrite visit_import_statement by done. simpl. split; set_solver.
Qed.

Section Extractor.
Context (fs : FileSystem) (py : Interpreter).

Lemma parse_imports_parsed py_file src tree :
  read_text fs py_file = Ok src →
  ast_parse py src = Ok tree →
  parse_imports_from_file fs py py_file = foldl visit (∅, ∅) (walk tree).
Proof.
  intros Hread Hparse. unfold parse_imports_from_file.
  rewrite Hread. simpl. by rewrite Hparse.
Qed.


(** C3, as amended: when the file is read and parsed, its dynamic
    imports are exactly the top-level segments named by the dynamic
    import calls of the tree: by the first positional argument when it
    is a string literal that is not empty, else, when there is no
    positional argument or the first is not a string literal, by the
    first keyword [name] or [module] whose value is a string literal that
    is not empty. A call without such a literal adds nothing. *)
Theorem parse_imports_dynamic py_file src tree (m : string) :
  read_text fs py_file = Ok src →
  ast_parse py src = Ok tree →
  m ∈ (parse_imports_from_file fs py py_file).2
  ↔ ∃ func args keywords s,
      subnode (Call func args keywords) tree
      ∧ func_name func ∈ dynamic_import_names
      ∧ literal_module args keywords s
      ∧ m = top_level_module s.
Proof.
  intros Hread Hparse.
  rewrite (parse_imports_parsed _ _ _ Hread Hparse), foldl_visit. simpl.
  rewrite elem_of_union, elem_of_union_list. split.
  - intros [?|(X & (n & -> & Hn)%list_elem_of_fmap & Hm)]; [set_solver|].
    apply visit_dynamic in Hm as (func & args & keywords & s & -> & ? & ? & ?).
    exists func, args, keywords, s. by rewrite <- walk_elem.
  - intros (func & args & keywords & s & Hsub & Hname & Hlit & Hm). right.
    exists (visit (∅, ∅) (Call func args keywords)).2. split.
    + apply list_elem_of_fmap. exists (Call func args keywords).
      split; [done|]. by apply walk_elem.
    + apply visit_dynamic. by exists func, args, keywords, s.
Qed.

(** C8, as amended: a file whose text, as it is read, parses to static
    import statements only yields exactly the top-level names of the
    modules these statements refer to, each once, a relative import
    without a module name adding none, and no dynamic import. The
    top-level name of a module is what stands before the first dot of
    its name. *)
Theorem parse_imports_static py_file src body :
  read_text fs py_file = Ok src →
  ast_parse py src = Ok (Module_ body) →
  Forall import_statement body →
  Forall grammatical body →
  parse_imports_from_file fs py py_file = (referenced_modules body, ∅)
  ∧ NoDup (elements (parse_imports_from_file fs py py_file).1).
Proof.
  intros Hread Hparse Himports Hgrammar.
  split; [|apply NoDup_elements].
  rewrite (parse_imports_parsed _ _ _ Hread Hparse).
  assert (walk (Module_ body) = Module_ body :: body) as ->.
  { unfold walk. rewrite node_size_children. simpl. f_equal.
    apply walk_queue_leaves; [apply queue_size_length|].
    eapply Forall_impl; [exact Himports|]. by intros []. }
  rewrite foldl_visit, !fmap_cons, !union_list_cons.
  destruct (visit_import_statements body Himports Hgrammar) as [-> ->].
  simpl. f_equal; set_solver.
Qed.

End Extractor.

(** ** Literal files and the project scanner *)

Section ScannerProperties.
Context (fs : FileSystem) (py : Interpreter).

Lemma is_file_not_dir (p : Path) : is_file fs p = true → is_dir fs p = false.
Proof.
  unfold is_file, is_dir. intros Hfile%bool_decide_eq_true.
  apply bool_decide_eq_false. congruence.
Qed.

(** The loop over the matches keeps the invariant that every path found
    so far exists and is a regular file. *)
Lemma literal_files_invariant py_file (raws : list string) (found : gset Path) :
  (∀ p, p ∈ found → exists_ fs p = true ∧ is_file fs p = true) →
  ∀ p, p ∈ foldl (literal_file_step fs py py_file) found raws →
       exists_ fs p = true ∧ is_file fs p = true.
Proof.
  revert found. induction raws as [|raw raws IH]; intros found Hfound;
    simpl; [done|].
  apply IH. intros p. unfold literal_file_step.
  destruct (negb (truthy raw)); [by apply Hfound|].
  set (candidate := if negb _ then _ else _).
  destruct (exists_ fs candidate) eqn:Hexists,
    (is_file fs candidate) eqn:Hfile; simpl; try by apply Hfound.
  intros [->%elem_of_singleton|?]%elem_of_union; [done | by apply Hfound].
Qed.

(** C7: every path that [find_literal_files] returns exists and is a
    regular file in the snapshot; a path that is missing or a directory
    is not returned. *)
Theorem find_literal_files_exist py_file project_root (p : Path) :
  p ∈ find_literal_files fs py py_file project_root →
  exists_ fs p = true ∧ is_file fs p = true ∧ is_dir fs p = false.
Proof.
  unfold find_literal_files.
  destruct (read_text fs py_file) as [src|]; simpl; [|set_solver].
  intros Hp. eapply literal_files_invariant in Hp as [? ?]; [|set_solver].
  auto using is_file_not_dir.
Qed.

Lemma scan_file_imports root r f :
  imports (scan_file fs py root r f)
  = imports r ∪ (parse_imports_from_file fs py f).1.
Proof. unfold scan_file. by destruct (parse_imports_from_file fs py f). Qed.

Lemma scan_file_dynamic root r f :
  dynamic_imports (scan_file fs py root r f)
  = dynamic_imports r ∪ (parse_imports_from_file fs py f).2.
Proof. unfold scan_file. by destruct (parse_imports_from_file fs py f). Qed.

(** The scan aggregates by union over the files. *)
Lemma scan_fold_imports root (l : list Path) r m :
  m ∈ imports (foldl (scan_file fs py root) r l)
  ↔ m ∈ imports r ∨ ∃ g, g ∈ l ∧ m ∈ (parse_imports_from_file fs py g).1.
Proof.
  revert r. induction l as [|f l IH]; intros r; simpl.
  - set_solver.
  - rewrite IH, scan_file_imports. set_solver.
Qed.

Lemma scan_fold_dynamic root (l : list Path) r m :
  m ∈ dynamic_imports (foldl (scan_file fs py root) r l)
  ↔ m ∈ dynamic_imports r
    ∨ ∃ g, g ∈ l ∧ m ∈ (parse_imports_from_file fs py g).2.
Proof.
  revert r. induction l as [|f l IH]; intros r; simpl.
  - set_solver.
  - rewrite IH, scan_file_dynamic. set_solver.
Qed.

Lemma scan_project_imports script scan_all m :
  m ∈ imports (scan_project fs py script scan_all)
  ↔ ∃ g, g ∈ files_to_scan fs script scan_all
         ∧ m ∈ (parse_imports_from_file fs py g).1.
Proof.
  unfold scan_project. rewrite scan_fold_imports. simpl.
  setoid_rewrite elem_of_elements. set_solver.
Qed.

Lemma scan_project_dynamic script scan_all m :
  m ∈ dynamic_imports (scan_project fs py script scan_all)
  ↔ ∃ g, g ∈ files_to_scan fs script scan_all
         ∧ m ∈ (parse_imports_from_file fs py g).2.
Proof.
  unfold scan_project. rewrite scan_fold_dynamic. simpl.
  setoid_rewrite elem_of_elements. set_solver.
Qed.


End ScannerProperties.

(** ** Data and path mapper *)

Lemma relative_to_Some (p other rel : Path) :
  Path.relative_to p other = Some rel
  ↔ Path.anchor p = Path.anchor other
    ∧ Path.parts p = Path.parts other ++ Path.parts rel
    ∧ Path.anchor rel = "".
Proof.
  unfold Path.relative_to. destruct rel as [a ps]. simpl.
  case_decide as Hpre; split.
  - intros [= <- <-]. destruct Hpre as [? [k Hk]].
    repeat split; [done|]. by rewrite Hk, drop_app_length.
  - intros (? & Hparts & ->). by rewrite Hparts, drop_app_length.
  - done.
  - intros (? & Hparts & _). destruct Hpre. split; [done|]. by exists ps.
Qed.

(** The parent of a path strictly below the root, relative to the root,
    is the parent of the relative path. *)
Lemma relative_to_parent (p root rel : Path) :
  Path.relative_to p root = Some rel →
  p ≠ root →
  Path.relative_to (Path.parent p) root = Some (Path.parent rel).
Proof.
  intros (Hanchor & Hparts & Hrel)%relative_to_Some Hne.
  apply relative_to_Some. unfold Path.parent. simpl.
  repeat split; [done| |done].
  destruct (Path.parts rel) as [|x xs] eqn:Hxs.
  - destruct Hne. destruct p, root. simpl in *.
    rewrite app_nil_r in Hparts. congruence.
  - rewrite Hparts. by apply removelast_app.
Qed.

Lemma length_removelast {A} (l : list A) :
  length (removelast l) = length l - 1.
Proof.
  induction l as [|x [|y l] IH]; simpl in *; [done..|]. rewrite IH. lia.
Qed.

(** A file directly in the root has the current directory as parent of
    its relative path. *)
Lemma relative_to_root_level (sep : string) (p root rel : Path) :
  Path.relative_to p root = Some rel →
  Path.parent p = root →
  Path.str sep (Path.parent rel) = ".".
Proof.
  intros (_ & Hparts & Hrel)%relative_to_Some <-.
  unfold Path.parent in *. simpl in *.
  apply (f_equal length) in Hparts.
  rewrite length_app, length_removelast in Hparts.
  destruct rel as [a [|x [|y l]]]; simpl in *; subst; try done. lia.
Qed.

Section Mapper.
Context (fs : FileSystem) (py : Interpreter).

(** The loop maps each path to one entry, in order. *)
Lemma map_add_data_entries_fmap (paths : list Path) (root : Path) :
  map_add_data_entries fs py paths root
  = (λ p, (resolve fs p, destination fs py (resolve fs p) root)) <$> paths.
Proof.
  unfold map_add_data_entries.
  rewrite (foldl_extend (λ p, [(resolve fs p, _)])). simpl.
  apply concat_singletons.
Qed.

(** C2, as amended: the entries are pairwise distinct exactly when no
    two paths of the input resolve to the same path; the function has
    one entry for each path of its input. *)
Theorem map_add_data_entries_distinct (paths : list Path) (root : Path) :
  NoDup (resolve fs <$> paths) →
  NoDup (map_add_data_entries fs py paths root)
  ∧ length (map_add_data_entries fs py paths root) = length paths.
Proof.
  intros Hdistinct. rewrite map_add_data_entries_fmap, length_fmap.
  split; [|done].
  apply (NoDup_fmap_1 fst). by rewrite <- list_fmap_compose.
Qed.

(** C9, as amended: the entry of a path has the resolved path as
    source, and the destination is that of the resolved path. If the
    source lies under the project root, the destination of a file is its
    parent directory relative to the root, which is [.] for a file
    directly in the root, and the destination of a directory is the
    directory relative to the root. If the source lies outside the
    project root, the destination is its base name. *)
Theorem map_add_data_entries_destination (paths : list Path) (root : Path)
    (i : nat) (p : Path) :
  paths !! i = Some p →
  ∃ dest,
    map_add_data_entries fs py paths root !! i = Some (resolve fs p, dest)
    ∧ (∀ rel,
         Path.relative_to (resolve fs p) root = Some rel →
         (is_file fs (resolve fs p) = true →
          dest = Path.str (os_sep py) (Path.parent rel)
          ∧ (resolve fs p ≠ root →
             Path.relative_to (Path.parent (resolve fs p)) root
             = Some (Path.parent rel))
          ∧ (Path.parent (resolve fs p) = root → dest = "."))
         ∧ (is_dir fs (resolve fs p) = true →
            dest = Path.str (os_sep py) rel))
    ∧ (Path.relative_to (resolve fs p) root = None →
       dest = Path.name (resolve fs p)).
Proof.
  intros Hp. exists (destination fs py (resolve fs p) root).
  rewrite map_add_data_entries_fmap, list_lookup_fmap, Hp.
  split; [done|]. unfold destination. split.
  - intros rel Hrel. rewrite Hrel. split.
    + intros Hfile. rewrite Hfile.
      eauto using relative_to_parent, relative_to_root_level.
    + intros Hdir. destruct (is_file fs (resolve fs p)) eqn:Hfile; [|done].
      apply is_file_not_dir in Hfile. congruence.
  - by intros ->.
Qed.

(** The caller of [map_add_data_entries] is where identical pairs are
    suppressed: an entry is appended only when the result does not hold
    it yet. *)
Lemma append_new_NoDup (result entries : list (Path * string)) :
  NoDup result → NoDup (append_new result entries).
Proof.
  unfold append_new. revert result.
  induction entries as [|t entries IH]; intros result Hresult; simpl; [done|].
  apply IH. case_bool_decide as Ht; [done|].
  apply NoDup_app. repeat split; [done| |apply NoDup_singleton].
  intros x Hx ->%list_elem_of_singleton. done.
Qed.

Lemma assemble_datas_NoDup script_var manual_datas literal_files auto :
  NoDup manual_datas →
  NoDup (_assemble_datas fs py script_var manual_datas literal_files auto).
Proof.
  intros Hmanual. unfold _assemble_datas.
  destruct auto; auto using append_new_NoDup.
Qed.

End Mapper.

(** ** Module classifier *)

Lemma split_nonempty (sep : ascii) (s : string) : split sep s ≠ [].
Proof.
  destruct s as [|c s]; simpl; [done|].
  destruct (Ascii.eqb c sep); [done|]. by destruct (split sep s).
Qed.

(** The top-level segment of a dotted name is not empty. *)
Lemma top_level_dotted (s : string) : dotted s → top_level_module s ≠ "".
Proof.
  unfold dotted, top_level_module. intros Hsegs.
  destruct (truthy s) eqn:Hs.
  - pose proof (split_nonempty "." s).
    destruct (split "." s) as [|seg segs]; [done|]. simpl.
    by inversion Hsegs.
  - apply truthy_false in Hs as ->. by inversion Hsegs.
Qed.

Section ClassifierProperties.
Context (fs : FileSystem) (py : Interpreter).

(** C4: when the lookup of the import system is reached and raises,
    the module is classified as third-party. *)
Theorem is_third_party_lookup_error (mod_name : string)
    (stdlib : gset string) (pkg_map : gmap string (list string)) :
  top_level_module mod_name ≠ "" →
  top_level_module mod_name ∉ stdlib →
  top_level_module mod_name ∉ dom pkg_map →
  find_spec py (top_level_module mod_name) = Raise →
  is_third_party fs py mod_name stdlib pkg_map = true.
Proof.
  intros Hm Hstd Hpkg Hraise. unfold is_third_party.
  rewrite (proj2 (truthy_spec _) Hm).
  rewrite (bool_decide_eq_false_2 _ Hstd), (bool_decide_eq_false_2 _ Hpkg).
  simpl. unfold locate_outside_stdlib. by rewrite Hraise.
Qed.

(** A top-level segment that is not empty, not in the standard library
    set and a key of the package map makes the module third-party. *)
Lemma is_third_party_key (mod_name : string)
    (stdlib : gset string) (pkg_map : gmap string (list string)) :
  top_level_module mod_name ≠ "" →
  top_level_module mod_name ∉ stdlib →
  top_level_module mod_name ∈ dom pkg_map →
  is_third_party fs py mod_name stdlib pkg_map = true.
Proof.
  intros Hm Hstd Hpkg. unfold is_third_party.
  rewrite (proj2 (truthy_spec _) Hm).
  by rewrite (bool_decide_eq_false_2 _ Hstd), (bool_decide_eq_true_2 _ Hpkg).
Qed.

(** For the module names of the data model, the top-level segment is
    empty only when the name is: on them the third case needs no more
    than a name that is not empty. *)
Lemma is_third_party_dotted (mod_name : string)
    (stdlib : gset string) (pkg_map : gmap string (list string)) :
  dotted mod_name →
  top_level_module mod_name ∉ stdlib →
  top_level_module mod_name ∈ dom pkg_map →
  is_third_party fs py mod_name stdlib pkg_map = true.
Proof. intros Hm%top_level_dotted. by apply is_third_party_key. Qed.

(** C5: with a package map that has no empty key, as the map of the
    installed distributions has none, the empty name is not third-party;
    a name whose top-level segment is in the standard library set is not
    third-party; otherwise, a name whose top-level segment is a key of
    the package map is third-party. *)
Theorem is_third_party_classified (mod_name : string)
    (stdlib : gset string) (pkg_map : gmap string (list string)) :
  "" ∉ dom pkg_map →
  (mod_name = "" → is_third_party fs py mod_name stdlib pkg_map = false)
  ∧ (top_level_module mod_name ∈ stdlib →
     is_third_party fs py mod_name stdlib pkg_map = false)
  ∧ (mod_name ≠ "" →
     top_level_module mod_name ∉ stdlib →
     top_level_module mod_name ∈ dom pkg_map →
     is_third_party fs py mod_name stdlib pkg_map = true).
Proof.
  intros Hkeys. split; [|split].
  - intros ->. reflexivity.
  - intros Hstd. unfold is_third_party.
    rewrite (bool_decide_eq_true_2 _ Hstd). by rewrite orb_true_r.
  - intros _ Hstd Hpkg. apply is_third_party_key; [|done..].
    by intros Hempty; rewrite Hempty in Hpkg.
Qed.

End ClassifierProperties.

(** ** The project scanner and the entry script *)

Section Deduplication.
Context (fs : FileSystem).

(** When the entry script is given in resolved form, and resolving is
    idempotent, the set of files holds one path for each file. *)
Lemma files_to_scan_resolved (script : Path) (scan_all : bool) (f g : Path) :
  resolve fs script = script →
  (∀ p, resolve fs (resolve fs p) = resolve fs p) →
  f ∈ files_to_scan fs script scan_all →
  g ∈ files_to_scan fs script scan_all →
  resolve fs f = resolve fs g →
  f = g.
Proof.
  intros Hscript Hidem Hf Hg Heq.
  assert (∀ x, x ∈ files_to_scan fs script scan_all → resolve fs x = x)
    as Hfixed.
  { intros x. unfold files_to_scan, collect_files.
    rewrite elem_of_list_to_set, elem_of_app, list_elem_of_singleton.
    intros [->|Hx]; [done|].
    destruct scan_all; [|by apply elem_of_nil in Hx].
    apply list_elem_of_fmap in Hx as (y & -> & _). apply Hidem. }
  by rewrite <- (Hfixed f Hf), <- (Hfixed g Hg).
Qed.

End Deduplication.

(** * The properties on the sample project *)

Import Sample.

Lemma parse_imports_dynamic_witness :
  "plugins" ∈ (parse_imports_from_file fs py main_py).2
  ↔ ∃ func args keywords s,
      subnode (Call func args keywords) main_tree
      ∧ func_name func ∈ dynamic_import_names
      ∧ literal_module args keywords s
      ∧ "plugins" = top_level_module s.
Proof.
  apply (parse_imports_dynamic fs py main_py main_src main_tree "plugins");
    reflexivity.
Defined.

(** C3, as the claim states it, fails on [importlib.import_module('')]:
    the first positional argument of the call is a string literal, and the
    top-level segment of its value is not added. *)
Lemma parse_imports_empty_literal :
  ¬ (∀ (fs : FileSystem) (py : Interpreter) py_file src tree
       func s rest keywords,
       read_text fs py_file = Ok src →
       ast_parse py src = Ok tree →
       subnode (Call func (Constant (CStr s) :: rest) keywords) tree →
       func_name func ∈ dynamic_import_names →
       top_level_module s ∈ (parse_imports_from_file fs py py_file).2).
Proof.
  intros Hclaim.
  specialize (Hclaim fs py empty_name_py empty_name_src empty_name_tree
                import_module "" [] [] eq_refl eq_refl).
  assert (top_level_module "" ∉ (parse_imports_from_file fs py empty_name_py).2)
    as Hout by by_evaluation.
  apply Hout, Hclaim.
  - apply (subnode_child _ (call_stmt empty_name_call)); [|by left].
    apply (subnode_child _ empty_name_call); [apply subnode_refl | by left].
  - by_evaluation.
Qed.

Lemma parse_imports_static_witness :
  parse_imports_from_file fs py imports_only_py
  = (referenced_modules imports_only_body, ∅)
  ∧ NoDup (elements (parse_imports_from_file fs py imports_only_py).1).
Proof.
  apply (parse_imports_static fs py imports_only_py imports_only_src
           imports_only_body); [reflexivity | reflexivity | |].
  - repeat constructor.
  - repeat constructor; discriminate.
Defined.


Lemma find_literal_files_exist_witness :
  exists_ fs config_json = true ∧ is_file fs config_json = true
  ∧ is_dir fs config_json = false.
Proof.
  apply (find_literal_files_exist fs py main_py cwd config_json).
  by_evaluation.
Defined.

(** C2, as the claim states it, fails on two paths that denote one file,
    here [main.py] and [/proj/main.py]: the function returns the same
    pair twice. *)
Lemma map_add_data_entries_repeats :
  typed_script ≠ main_py
  ∧ map_add_data_entries fs py [typed_script; main_py] cwd
    = [(main_py, "."); (main_py, ".")]
  ∧ ¬ NoDup (map_add_data_entries fs py [typed_script; main_py] cwd).
Proof.
  split; [discriminate|]. split; [reflexivity|].
  change (map_add_data_entries fs py [typed_script; main_py] cwd)
    with [(main_py, "."); (main_py, ".")].
  rewrite NoDup_cons, list_elem_of_singleton. tauto.
Qed.

Lemma map_add_data_entries_distinct_witness :
  NoDup (map_add_data_entries fs py [config_json; main_py; data_dir; passwd] cwd)
  ∧ length (map_add_data_entries fs py [config_json; main_py; data_dir; passwd] cwd)
    = 4.
Proof.
  apply (map_add_data_entries_distinct fs py
           [config_json; main_py; data_dir; passwd] cwd).
  by_evaluation.
Defined.

Lemma map_add_data_entries_destination_witness :
  ∃ dest,
    map_add_data_entries fs py [config_json; main_py; data_dir; passwd] cwd !! 0
    = Some (resolve fs config_json, dest)
    ∧ (∀ rel,
         Path.relative_to (resolve fs config_json) cwd = Some rel →
         (is_file fs (resolve fs config_json) = true →
          dest = Path.str (os_sep py) (Path.parent rel)
          ∧ (resolve fs config_json ≠ cwd →
             Path.relative_to (Path.parent (resolve fs config_json)) cwd
             = Some (Path.parent rel))
          ∧ (Path.parent (resolve fs config_json) = cwd → dest = "."))
         ∧ (is_dir fs (resolve fs config_json) = true →
            dest = Path.str (os_sep py) rel))
    ∧ (Path.relative_to (resolve fs config_json) cwd = None →
       dest = Path.name (resolve fs config_json)).
Proof.
  apply (map_add_data_entries_destination fs py
           [config_json; main_py; data_dir; passwd] cwd 0 config_json).
  reflexivity.
Defined.

(** The four kinds of path of the sample: a file below the root, a file
    in the root, a directory, and a file outside the root. *)
Example map_add_data_entries_sample :
  map_add_data_entries fs py [config_json; main_py; data_dir; passwd] cwd
  = [(config_json, "data"); (main_py, "."); (data_dir, "data");
     (passwd, "passwd")].
Proof. reflexivity. Qed.

Lemma is_third_party_lookup_error_witness :
  is_third_party fs py "plugins.core" {["os"; "sys"]}
                 {["yaml" := ["PyYAML"]]} = true.
Proof.
  apply (is_third_party_lookup_error fs py "plugins.core").
  - vm_compute. discriminate.
  - by_evaluation.
  - by_evaluation.
  - reflexivity.
Defined.

Lemma is_third_party_classified_witness :
  is_third_party fs py "" {["os"; "sys"]} {["yaml" := ["PyYAML"]]} = false
  ∧ is_third_party fs py "os.path" {["os"; "sys"]} {["yaml" := ["PyYAML"]]}
    = false
  ∧ is_third_party fs py "yaml.loader" {["os"; "sys"]} {["yaml" := ["PyYAML"]]}
    = true.
Proof.
  destruct (is_third_party_classified fs py "" {["os"; "sys"]}
              {["yaml" := ["PyYAML"]]}) as (Hempty & _); [by_evaluation|].
  destruct (is_third_party_classified fs py "os.path" {["os"; "sys"]}
              {["yaml" := ["PyYAML"]]}) as (_ & Hstd & _); [by_evaluation|].
  destruct (is_third_party_classified fs py "yaml.loader" {["os"; "sys"]}
              {["yaml" := ["PyYAML"]]}) as (_ & _ & Hkey); [by_evaluation|].
  split; [by apply Hempty|]. split; [apply Hstd; by_evaluation|].
  apply Hkey; [discriminate | by_evaluation | by_evaluation].
Defined.

(** C8, as the claim states it, fails on a source file that starts with
    a byte order mark: the program of [marked.py] is the one statement
    [import os.path], and the file yields no import, because the text is
    parsed with the mark in front. *)
Lemma parse_imports_byte_order_mark :
  ¬ (∀ (fs : FileSystem) (py : Interpreter) py_file content body,
       read_text fs py_file = Ok content →
       ast_parse py (program_text content) = Ok (Module_ body) →
       Forall import_statement body →
       Forall grammatical body →
       parse_imports_from_file fs py py_file = (referenced_modules body, ∅)).
Proof.
  intros Hclaim.
  assert ("os" ∉ (parse_imports_from_file Corners.fs Corners.py
                    Corners.marked_py).1) as Hout by by_evaluation.
  apply Hout.
  rewrite (Hclaim Corners.fs Corners.py Corners.marked_py
             Corners.marked_src Corners.plain_body).
  - by_evaluation.
  - reflexivity.
  - reflexivity.
  - repeat constructor.
  - repeat constructor; discriminate.
Qed.

(** C9, as the claim states it, fails on a symbolic link: [link.cfg] lies
    directly in the project root and is a file, so that its destination
    would be [.]; the entry is that of the file [/srv/shared.cfg] that the
    link resolves to, with the base name of this file as destination. *)
Lemma map_add_data_entries_symlink :
  ¬ (∀ (fs : FileSystem) (py : Interpreter) (p root rel : Path),
       Path.relative_to p root = Some rel →
       is_file fs p = true →
       (map_add_data_entries fs py [p] root).*2
       = [Path.str (os_sep py) (Path.parent rel)]).
Proof.
  intros Hclaim.
  specialize (Hclaim Corners.fs Corners.py Corners.link_cfg cwd
                (Path.mk "" ["link.cfg"]) eq_refl eq_refl).
  assert (map_add_data_entries Corners.fs Corners.py [Corners.link_cfg] cwd
          = [(Corners.shared_cfg, "shared.cfg")]) as Hentry by reflexivity.
  rewrite Hentry in Hclaim. discriminate.
Qed.

(** C10 on the sample: the entry script is given as [main.py], relative
    to the working directory, and the whole project is scanned. The set of
    files then holds the script twice, as it was given and as the walk
    found it, and both paths denote the same file. *)
Theorem scan_project_script_twice :
  typed_script ∈ files_to_scan fs typed_script true
  ∧ main_py ∈ files_to_scan fs typed_script true
  ∧ typed_script ≠ main_py
  ∧ resolve fs typed_script = resolve fs main_py
  ∧ size (files_to_scan fs typed_script true) = 5
  ∧ length (rglob_py fs (resolve fs (Path.parent typed_script))) = 4.
Proof. repeat split; try by_evaluation; reflexivity. Qed.

(** The command of the sample, with an icon that does not exist. *)
Example build_command_sample :
  build_command fs py
    {| script_path := main_py; name := Some "app"; onefile := true;
       windowed := false; clean := true;
       icon_path := Some (at_root ["proj"; "app.ico"]);
       add_datas := [(data_dir, "data")]; hidden_imports := ["requests"];
       collect_all_pkgs := ["yaml"]; extra_paths := Some [cwd];
       noconfirm := true; version_file := None; noupx := true;
       runtime_tmpdir := None |}
  = ["/usr/bin/python3"; "-m"; "PyInstaller"; "--clean"; "--noconfirm";
     "--onefile"; "--name"; "app"; "--add-data"; "/proj/data:data";
     "--hidden-import"; "requests"; "--collect-all"; "yaml";
     "--paths"; "/proj"; "--noupx"; "/proj/main.py"].
Proof. reflexivity. Qed.

(** * More of the program, verified *)

(** ** Sorting a set of names *)

Lemma sorted_elem (s : gset string) (x : string) : x ∈ sorted s ↔ x ∈ s.
Proof. unfold sorted. by rewrite merge_sort_Permutation, elem_of_elements. Qed.

Lemma sorted_Sorted (s : gset string) : Sorted String.le (sorted s).
Proof. apply (Sorted_merge_sort String.le). Qed.

Lemma sorted_NoDup (s : gset string) : NoDup (sorted s).
Proof.
  unfold sorted. rewrite merge_sort_Permutation. apply NoDup_elements.
Qed.

(** ** Top-level segments *)

(** The first piece of a split holds no separator. *)
Lemma split_hd_split (sep : ascii) (s : string) :
  split sep (hd "" (split sep s)) = [hd "" (split sep s)].
Proof.
  induction s as [|c s IH]; simpl; [done|].
  destruct (Ascii.eqb c sep) eqn:Hc; simpl; [done|].
  pose proof (split_nonempty sep s).
  destruct (split sep s) as [|seg segs]; [done|]. simpl in *.
  by rewrite Hc, IH.
Qed.

Lemma top_level_split (s : string) :
  split "." (top_level_module s) = [top_level_module s].
Proof.
  unfold top_level_module. destruct (truthy s) eqn:Hs.
  - apply split_hd_split.
  - by apply truthy_false in Hs as ->.
Qed.

(** A name that holds no dot is its own top-level segment. *)
Lemma top_level_segment (m : string) :
  split "." m = [m] → top_level_module m = m.
Proof.
  intros Hm. unfold top_level_module. rewrite Hm. by destruct (truthy m).
Qed.

(** X1: the top-level segment of a name holds no dot, and taking the
    top-level segment twice is the same as taking it once. *)
Theorem top_level_module_idempotent (s : string) :
  top_level_module (top_level_module s) = top_level_module s
  ∧ split "." (top_level_module s) = [top_level_module s].
Proof. split; [apply top_level_segment|]; apply top_level_split. Qed.

Section ClassifierMore.
Context (fs : FileSystem) (py : Interpreter).

(** X2: the classification of a name depends on its top-level segment
    only: a dotted name and its top-level segment classify alike. *)
Theorem is_third_party_top_level (mod_name : string)
    (stdlib : gset string) (pkg_map : gmap string (list string)) :
  is_third_party fs py (top_level_module mod_name) stdlib pkg_map
  = is_third_party fs py mod_name stdlib pkg_map.
Proof.
  unfold is_third_party.
  by rewrite (top_level_segment _ (top_level_split mod_name)).
Qed.

End ClassifierMore.

(** The proper ancestors of a path are the paths with its anchor and a
    proper prefix of its components. *)
Lemma parents_elem (p o : Path) :
  p ∈ Path.parents o
  ↔ Path.anchor p = Path.anchor o
    ∧ Path.parts p `prefix_of` Path.parts o
    ∧ length (Path.parts p) < length (Path.parts o).
Proof.
  unfold Path.parents. rewrite list_elem_of_fmap. split.
  - intros (k & -> & Hk). simpl.
    apply elem_of_reverse, elem_of_seq in Hk.
    split; [done|]. split.
    + exists (drop k (Path.parts o)). by rewrite take_drop.
    + rewrite length_take. lia.
  - intros (Hanchor & [rest Hrest] & Hlen).
    exists (length (Path.parts p)). split.
    + destruct p as [a ps]. simpl in *. subst a. f_equal.
      by rewrite Hrest, take_app_length.
    + apply elem_of_reverse, elem_of_seq. lia.
Qed.

(** A path is a directory or lies below it exactly when it is relative
    to the directory. *)
Lemma relative_to_parents (o dir : Path) :
  is_Some (Path.relative_to o dir) ↔ dir ∈ Path.parents o ∨ o = dir.
Proof.
  rewrite parents_elem. unfold Path.relative_to.
  case_decide as Hrel; split.
  - intros _. destruct Hrel as [Hanchor [rest Hrest]].
    destruct rest as [|x rest].
    + right. destruct o, dir. simpl in *.
      rewrite app_nil_r in Hrest. by subst.
    + left. repeat split; [done|by exists (x :: rest)|].
      rewrite Hrest, length_app. simpl. lia.
  - by eexists.
  - by intros [? ?].
  - intros [(? & ? & _)| ->]; destruct Hrel; done.
Qed.

Section ClassifierLocated.
Context (fs : FileSystem) (py : Interpreter).

(** X3: when the lookup finds a module with an origin that is not the
    registry of built-in modules, the module is third-party exactly when
    its resolved origin neither is the standard library directory nor
    lies below it. *)
Theorem is_third_party_located (mod_name : string)
    (stdlib : gset string) (pkg_map : gmap string (list string))
    (o dir : string) :
  top_level_module mod_name ≠ "" →
  top_level_module mod_name ∉ stdlib →
  top_level_module mod_name ∉ dom pkg_map →
  find_spec py (top_level_module mod_name) = Ok (Some {| origin := Some o |}) →
  o ≠ "built-in" →
  sysconfig_stdlib py = Ok dir →
  is_third_party fs py mod_name stdlib pkg_map = true
  ↔ Path.relative_to (resolve fs (Path_of_str py o))
                     (resolve fs (Path_of_str py dir)) = None.
Proof.
  intros Hm Hstd Hpkg Hspec Ho Hdir. unfold is_third_party.
  rewrite (proj2 (truthy_spec _) Hm).
  rewrite (bool_decide_eq_false_2 _ Hstd), (bool_decide_eq_false_2 _ Hpkg).
  simpl. unfold locate_outside_stdlib. rewrite Hspec. simpl.
  rewrite (proj2 (String.eqb_neq _ _) Ho), Hdir. simpl.
  rewrite andb_true_iff, !bool_decide_eq_true.
  rewrite eq_None_not_Some, relative_to_parents. tauto.
Qed.

End ClassifierLocated.

(** ** The names that a scan collects *)

Lemma import_names_elem (names : list alias) (m : string) :
  m ∈ foldl (λ imports a,
               if truthy (alias_name a)
               then {[top_level_module (alias_name a)]} ∪ imports
               else imports) (∅ : gset string) names →
  ∃ a, a ∈ names ∧ m = top_level_module (alias_name a).
Proof.
  induction names as [|a names IH]; simpl; [set_solver|].
  rewrite import_names_acc. destruct (truthy (alias_name a)).
  - intros [[->%elem_of_singleton|?]%elem_of_union|Hm]%elem_of_union.
    + exists a. split; [left | done].
    + set_solver.
    + destruct (IH Hm) as (a' & ? & ?). exists a'. split; [by right | done].
  - intros [?|Hm]%elem_of_union; [set_solver|].
    destruct (IH Hm) as (a' & ? & ?). exists a'. split; [by right | done].
Qed.

(** Whatever a node adds to either set is a top-level segment. *)
Lemma visit_segments (n : node) (m : string) :
  m ∈ (visit (∅, ∅) n).1 ∨ m ∈ (visit (∅, ∅) n).2 →
  top_level_module m = m.
Proof.
  destruct n as [|names|module ? ?|func args keywords| | | |]; simpl;
    try set_solver.
  - intros [(a & _ & ->)%import_names_elem|?]; [|set_solver].
    apply top_level_segment, top_level_split.
  - destruct (truthy_opt module); simpl; [|set_solver].
    intros [[->%elem_of_singleton|?]%elem_of_union|?]; [|set_solver..].
    apply top_level_segment, top_level_split.
  - case_bool_decide; [|set_solver].
    destruct (truthy_opt _); simpl; [|set_solver].
    intros [?|[->%elem_of_singleton|?]%elem_of_union]; [set_solver| |set_solver].
    apply top_level_segment, top_level_split.
Qed.

Section ScannerMore.
Context (fs : FileSystem) (py : Interpreter).

Lemma parse_imports_segments py_file (m : string) :
  m ∈ (parse_imports_from_file fs py py_file).1
  ∨ m ∈ (parse_imports_from_file fs py py_file).2 →
  top_level_module m = m.
Proof.
  unfold parse_imports_from_file.
  destruct (read_text fs py_file) as [src|]; simpl; [|set_solver].
  destruct (ast_parse py src) as [tree|]; simpl; [|set_solver].
  rewrite foldl_visit. simpl. rewrite !union_empty_l_L, !elem_of_union_list.
  intros [(X & (n & -> & _)%list_elem_of_fmap & Hm)
         |(X & (n & -> & _)%list_elem_of_fmap & Hm)];
    apply (visit_segments n); auto.
Qed.

(** X4: every name that the extractor returns for a file, and every name
    in the imports and dynamic imports of a scan, is a top-level segment:
    it is its own top-level segment, so that it holds no dot. *)
Theorem scan_names_top_level py_file script scan_all (m : string) :
  (m ∈ (parse_imports_from_file fs py py_file).1
   ∨ m ∈ (parse_imports_from_file fs py py_file).2 →
   top_level_module m = m)
  ∧ (m ∈ imports (scan_project fs py script scan_all)
     ∨ m ∈ dynamic_imports (scan_project fs py script scan_all) →
     top_level_module m = m).
Proof.
  split; [apply parse_imports_segments|].
  rewrite scan_project_imports, scan_project_dynamic.
  intros [(g & _ & Hm)|(g & _ & Hm)]; apply (parse_imports_segments g); auto.
Qed.

Lemma literal_file_step_elem py_file found raw (p : Path) :
  p ∈ literal_file_step fs py py_file found raw
  ↔ p ∈ found
    ∨ (raw ≠ "" ∧ p = literal_candidate fs py py_file raw
       ∧ exists_ fs p = true ∧ is_file fs p = true).
Proof.
  unfold literal_file_step.
  destruct (truthy raw) eqn:Hraw; simpl.
  - apply truthy_spec in Hraw.
    replace (if negb (Path.is_absolute _) then _ else _)
      with (literal_candidate fs py py_file raw)
      by (unfold literal_candidate; by destruct (Path.is_absolute _)).
    destruct (exists_ fs _) eqn:Hexists, (is_file fs _) eqn:Hfile; simpl;
      rewrite ?elem_of_union, ?elem_of_singleton; naive_solver congruence.
  - apply truthy_false in Hraw. naive_solver.
Qed.

Lemma literal_files_elem py_file (raws : list string) found (p : Path) :
  p ∈ foldl (literal_file_step fs py py_file) found raws
  ↔ p ∈ found
    ∨ ∃ raw, raw ∈ raws ∧ raw ≠ ""
             ∧ p = literal_candidate fs py py_file raw
             ∧ exists_ fs p = true ∧ is_file fs p = true.
Proof.
  revert found. induction raws as [|raw raws IH]; intros found; simpl.
  - split; [by left | intros [?|(? & ?%elem_of_nil & _)]; done].
  - rewrite IH, literal_file_step_elem. split.
    + intros [[?|?]|(raw' & ? & ?)]; [by left| |].
      * right. exists raw. split; [left | done].
      * right. exists raw'. split; [by right | done].
    + intros [?|(raw' & [->|?]%elem_of_cons & ?)]; [by left; left| |].
      * left. by right.
      * right. by exists raw'.
Qed.

(** X5: on a POSIX platform, whose rule for absolute paths the model
    has, every literal file of a file comes from a match of the pattern
    in the text of the file: the file can be read, the match is not
    empty, and the literal file is the path of the match, an absolute
    match as written and a relative match resolved against the directory
    of the file; it exists as a regular file. *)
Theorem find_literal_files_from_match py_file project_root (p : Path) :
  os_name py = "posix" →
  p ∈ find_literal_files fs py py_file project_root →
  ∃ src raw,
    read_text fs py_file = Ok src
    ∧ raw ∈ FILE_EXT_PATTERN_finditer py src
    ∧ raw ≠ ""
    ∧ p = literal_candidate fs py py_file raw
    ∧ exists_ fs p = true ∧ is_file fs p = true.
Proof.
  intros _. unfold find_literal_files.
  destruct (read_text fs py_file) as [src|]; simpl; [|set_solver].
  rewrite literal_files_elem.
  intros [?|(raw & ?)]; [set_solver|]. by exists src, raw.
Qed.

Lemma find_literal_files_regular py_file project_root (p : Path) :
  p ∈ find_literal_files fs py py_file project_root →
  exists_ fs p = true ∧ is_file fs p = true.
Proof.
  unfold find_literal_files.
  destruct (read_text fs py_file) as [src|]; simpl; [|set_solver].
  intros Hp. eapply literal_files_invariant in Hp; [done | set_solver].
Qed.

Lemma scan_file_literal root r f :
  literal_files (scan_file fs py root r f)
  = literal_files r ∪ find_literal_files fs py f root.
Proof. unfold scan_file. by destruct (parse_imports_from_file fs py f). Qed.

Lemma scan_fold_literal root (l : list Path) r (p : Path) :
  p ∈ literal_files (foldl (scan_file fs py root) r l)
  ↔ p ∈ literal_files r ∨ ∃ g, g ∈ l ∧ p ∈ find_literal_files fs py g root.
Proof.
  revert r. induction l as [|f l IH]; intros r; simpl.
  - set_solver.
  - rewrite IH, scan_file_literal. set_solver.
Qed.

Lemma scan_project_literal script scan_all (p : Path) :
  p ∈ literal_files (scan_project fs py script scan_all)
  ↔ ∃ g, g ∈ files_to_scan fs script scan_all
         ∧ p ∈ find_literal_files fs py g (resolve fs (Path.parent script)).
Proof.
  unfold scan_project. rewrite scan_fold_literal. simpl.
  setoid_rewrite elem_of_elements. set_solver.
Qed.

(** X6: every literal file in the result of a scan was found in one of
    the scanned files, and it exists as a regular file, not a directory,
    in the snapshot. *)
Theorem scan_project_literal_files_exist script scan_all (p : Path) :
  p ∈ literal_files (scan_project fs py script scan_all) →
  (∃ g, g ∈ files_to_scan fs script scan_all
        ∧ p ∈ find_literal_files fs py g (resolve fs (Path.parent script)))
  ∧ exists_ fs p = true ∧ is_file fs p = true ∧ is_dir fs p = false.
Proof.
  intros (g & Hg & Hp)%scan_project_literal.
  split; [by exists g|].
  apply find_literal_files_regular in Hp as [? ?].
  auto using is_file_not_dir.
Qed.

(** Without the scan of the whole project, the result is what the
    entry script alone yields, with the resolved directory of the script
    as project root. *)
Theorem scan_project_script_only (script : Path) :
  scan_project fs py script false
  = {| project_root := resolve fs (Path.parent script);
       imports := (parse_imports_from_file fs py script).1;
       dynamic_imports := (parse_imports_from_file fs py script).2;
       literal_files :=
         find_literal_files fs py script (resolve fs (Path.parent script)) |}.
Proof.
  unfold scan_project, files_to_scan, collect_files. simpl.
  rewrite union_empty_r_L, elements_singleton. simpl.
  unfold scan_file. destruct (parse_imports_from_file fs py script). simpl.
  by rewrite !union_empty_l_L.
Qed.

Lemma files_to_scan_script script scan_all :
  script ∈ files_to_scan fs script scan_all.
Proof. unfold files_to_scan, collect_files. set_solver. Qed.

(** X7: the entry script is always scanned, and the scan of the whole
    project finds all that the scan of the script alone finds. *)
Theorem scan_project_monotone (script : Path) (scan_all : bool) :
  imports (scan_project fs py script false)
    ⊆ imports (scan_project fs py script scan_all)
  ∧ dynamic_imports (scan_project fs py script false)
      ⊆ dynamic_imports (scan_project fs py script scan_all)
  ∧ literal_files (scan_project fs py script false)
      ⊆ literal_files (scan_project fs py script scan_all).
Proof.
  pose proof (files_to_scan_script script scan_all) as Hscript.
  assert (files_to_scan fs script false = {[script]}) as Honly.
  { unfold files_to_scan, collect_files. set_solver. }
  split; [|split]; intros x.
  - rewrite !scan_project_imports, Honly.
    intros (g & ->%elem_of_singleton & ?). by exists script.
  - rewrite !scan_project_dynamic, Honly.
    intros (g & ->%elem_of_singleton & ?). by exists script.
  - rewrite !scan_project_literal, Honly.
    intros (g & ->%elem_of_singleton & ?). by exists script.
Qed.

End ScannerMore.

(** ** Data directories and the merge of the data mappings *)

Lemma foldl_cond_snoc {A B} (c : A → bool) (g : A → B) (l : list A)
    (acc : list B) :
  foldl (λ acc x, if c x then acc ++ [g x] else acc) acc l
  = acc ++ (g <$> filter (λ x, c x = true) l).
Proof.
  revert acc. induction l as [|x l IH]; intros acc; simpl.
  - by rewrite app_nil_r.
  - rewrite IH. destruct (c x) eqn:Hc.
    + rewrite filter_cons_True by done. by rewrite <- app_assoc.
    + rewrite filter_cons_False by congruence. done.
Qed.

Section DataMore.
Context (fs : FileSystem) (py : Interpreter).

Lemma auto_data_dirs_filter (root : Path) :
  auto_data_dirs fs py root
  = (λ name, (Path.joinpath root (Path_of_str py name), name))
    <$> filter (λ name,
                  exists_ fs (Path.joinpath root (Path_of_str py name))
                  && is_dir fs (Path.joinpath root (Path_of_str py name))
                  = true)
               AUTO_DATA_DIRS.
Proof.
  unfold auto_data_dirs.
  apply (foldl_cond_snoc
           (λ name, exists_ fs (Path.joinpath root (Path_of_str py name))
                    && is_dir fs (Path.joinpath root (Path_of_str py name)))
           (λ name, (Path.joinpath root (Path_of_str py name), name))).
Qed.

(** X8: the automatic data directories come in the fixed order of their
    names, each name at most once; they are exactly the conventional
    names that are a directory directly under the project root, each with
    its name as destination. *)
Theorem auto_data_dirs_spec (root : Path) :
  (auto_data_dirs fs py root).*2 `sublist_of` AUTO_DATA_DIRS
  ∧ ∀ d name,
      (d, name) ∈ auto_data_dirs fs py root
      ↔ name ∈ AUTO_DATA_DIRS
        ∧ d = Path.joinpath root (Path_of_str py name)
        ∧ exists_ fs d = true ∧ is_dir fs d = true.
Proof.
  rewrite auto_data_dirs_filter. split.
  - assert (∀ l : list string,
              ((λ name, (Path.joinpath root (Path_of_str py name), name))
                 <$> l).*2 = l) as ->.
    { induction l as [|name l IH]; [done|]. rewrite !fmap_cons, IH. done. }
    apply sublist_filter.
  - intros d name. rewrite list_elem_of_fmap. split.
    + intros (name' & [= -> ->] & [Hdir ?]%list_elem_of_filter).
      apply andb_true_iff in Hdir. naive_solver.
    + intros (? & -> & Hexists & Hdir). exists name. split; [done|].
      apply list_elem_of_filter. by rewrite Hexists, Hdir.
Qed.

Lemma append_new_prefix (result entries : list (Path * string)) :
  result `prefix_of` append_new result entries.
Proof.
  unfold append_new. revert result.
  induction entries as [|t entries IH]; intros result; simpl; [done|].
  case_bool_decide; [apply IH|].
  etrans; [|apply IH]. by apply prefix_app_r.
Qed.

Lemma append_new_elem (result entries : list (Path * string)) e :
  e ∈ append_new result entries ↔ e ∈ result ∨ e ∈ entries.
Proof.
  unfold append_new. revert result.
  induction entries as [|t entries IH]; intros result; simpl.
  - rewrite elem_of_nil. tauto.
  - rewrite IH, elem_of_cons. case_bool_decide as Ht.
    + split; [tauto|]. intros [?|[->|?]]; auto.
    + rewrite elem_of_app, list_elem_of_singleton. tauto.
Qed.

(** X9: the merged data mappings hold exactly the mappings added by
    hand, the mappings of the literal files and, when they are switched
    on, the automatic data directories: the merge loses no entry and
    invents none. *)
Theorem assemble_datas_elem script_var manual_datas literal_files auto
    (e : Path * string) :
  e ∈ _assemble_datas fs py script_var manual_datas literal_files auto
  ↔ e ∈ manual_datas
    ∨ e ∈ map_add_data_entries fs py (elements literal_files)
            (Path.parent (resolve fs (Path_of_str py script_var)))
    ∨ (auto = true
       ∧ e ∈ auto_data_dirs fs py
               (Path.parent (resolve fs (Path_of_str py script_var)))).
Proof.
  unfold _assemble_datas. simpl.
  destruct auto; rewrite ?append_new_elem; naive_solver.
Qed.

(** X10: the mappings added by hand come first in the merged list, in
    their order, and the merge adds no duplicate: the merged list has
    none when the mappings added by hand have none. *)
Theorem assemble_datas_order script_var manual_datas literal_files auto :
  manual_datas
    `prefix_of` _assemble_datas fs py script_var manual_datas literal_files auto
  ∧ (NoDup manual_datas →
     NoDup (_assemble_datas fs py script_var manual_datas literal_files auto)).
Proof.
  split; [|apply assemble_datas_NoDup].
  unfold _assemble_datas. simpl.
  destruct auto; [etrans|]; apply append_new_prefix.
Qed.

End DataMore.

(** ** Heavy dependencies and hidden imports *)

Lemma heavy_fold_elem (l : list string) (acc : gset string) (x : string) :
  x ∈ foldl (λ s m,
               let root := top_level_module m in
               if bool_decide (root ∈ HEAVY_LIBS)
               then {[if negb (String.eqb root "PIL") then root else "Pillow"]} ∪ s
               else s) acc l
  ↔ x ∈ acc
    ∨ ∃ m, m ∈ l ∧ top_level_module m ∈ HEAVY_LIBS
           ∧ x = if negb (String.eqb (top_level_module m) "PIL")
                 then top_level_module m else "Pillow".
Proof.
  revert acc. induction l as [|m l IH]; intros acc; simpl.
  - split; [by left | intros [?|(? & ?%elem_of_nil & _)]; done].
  - rewrite IH. case_bool_decide as Hheavy.
    + rewrite elem_of_union, elem_of_singleton. split.
      * intros [[->|?]|(m' & ? & ?)]; [|by left|].
        -- right. exists m. split; [left | done].
        -- right. exists m'. split; [by right | done].
      * intros [?|(m' & [->|?]%elem_of_cons & ? & ->)]; [by left; right| |].
        -- left. by left.
        -- right. by exists m'.
    + split.
      * intros [?|(m' & ? & ?)]; [by left|].
        right. exists m'. split; [by right | done].
      * intros [?|(m' & [->|?]%elem_of_cons & ? & ?)]; [by left|done|].
        right. by exists m'.
Qed.

Lemma suggest_collect_all_elem (imports : gset string) (x : string) :
  x ∈ suggest_collect_all imports
  ↔ ∃ m, m ∈ imports ∧ top_level_module m ∈ HEAVY_LIBS
         ∧ x = if negb (String.eqb (top_level_module m) "PIL")
               then top_level_module m else "Pillow".
Proof.
  unfold suggest_collect_all. rewrite sorted_elem, heavy_fold_elem.
  setoid_rewrite elem_of_elements. set_solver.
Qed.

(** X11: a package is suggested exactly when some import has a
    top-level segment in the curated set; the suggestion is that segment,
    and [Pillow] when the segment is [PIL]. *)
Theorem suggest_collect_all_spec (imports : gset string) (x : string) :
  x ∈ suggest_collect_all imports
  ↔ ∃ m, m ∈ imports ∧ top_level_module m ∈ HEAVY_LIBS
         ∧ x = if negb (String.eqb (top_level_module m) "PIL")
               then top_level_module m else "Pillow".
Proof. apply suggest_collect_all_elem. Qed.

Lemma suggest_collect_all_heavy (imports : gset string) (x : string) :
  x ∈ suggest_collect_all imports → x ∈ HEAVY_LIBS ∧ x ≠ "PIL".
Proof.
  intros (m & _ & Hheavy & ->)%suggest_collect_all_elem.
  destruct (String.eqb_spec (top_level_module m) "PIL") as [HPIL|HPIL]; simpl.
  - split; [by_evaluation | discriminate].
  - done.
Qed.

(** X12: the suggestions are sorted, hold no name twice, are all names
    of the curated set, and never hold [PIL]. *)
Theorem suggest_collect_all_sorted (imports : gset string) :
  Sorted String.le (suggest_collect_all imports)
  ∧ NoDup (suggest_collect_all imports)
  ∧ ("PIL" ∉ suggest_collect_all imports)
  ∧ (∀ x, x ∈ suggest_collect_all imports → x ∈ HEAVY_LIBS).
Proof.
  split; [apply sorted_Sorted|]. split; [apply sorted_NoDup|]. split.
  - by intros [_ ?]%suggest_collect_all_heavy.
  - by intros x [? _]%suggest_collect_all_heavy.
Qed.

(** X13: the hidden imports are the detected imports, the dynamic imports
    and the names added by hand, each once, in sorted order. *)
Theorem assemble_hidden_imports_spec (detected dynamic : gset string)
    (manual : list string) :
  Sorted String.le (_assemble_hidden_imports detected dynamic manual)
  ∧ NoDup (_assemble_hidden_imports detected dynamic manual)
  ∧ ∀ x, x ∈ _assemble_hidden_imports detected dynamic manual
         ↔ x ∈ detected ∨ x ∈ dynamic ∨ x ∈ manual.
Proof.
  split; [apply sorted_Sorted|]. split; [apply sorted_NoDup|].
  intros x. unfold _assemble_hidden_imports. rewrite sorted_elem. set_solver.
Qed.

Lemma remove_selected_imports_elem (items : list string)
    (detected : gset string) (x : string) :
  x ∈ _remove_selected_imports items detected ↔ x ∈ detected ∧ x ∉ items.
Proof.
  unfold _remove_selected_imports. revert detected.
  induction items as [|it items IH]; intros detected; simpl.
  - rewrite elem_of_nil. tauto.
  - rewrite IH, elem_of_difference, elem_of_singleton, not_elem_of_cons. tauto.
Qed.

(** X14: removing the selected names takes a name out of the hidden
    imports only when it is neither a dynamic import nor a name added by
    hand: the removal changes the statically detected imports alone. *)
Theorem remove_selected_imports_hidden (items : list string)
    (detected dynamic : gset string) (manual : list string) (x : string) :
  x ∈ _assemble_hidden_imports
        (_remove_selected_imports items detected) dynamic manual
  ↔ (x ∈ detected ∧ x ∉ items) ∨ x ∈ dynamic ∨ x ∈ manual.
Proof.
  unfold _assemble_hidden_imports.
  rewrite sorted_elem, !elem_of_union, remove_selected_imports_elem.
  rewrite elem_of_list_to_set. tauto.
Qed.

(** ** The analysis *)

Section AnalysisProperties.
Context (fs : FileSystem) (py : Interpreter).

Lemma third_party_fold_elem (l : list string) (out : gset string)
    (stdlib : gset string) (pkg_map : gmap string (list string)) (m : string) :
  m ∈ foldl (λ out m,
               if is_third_party fs py m stdlib pkg_map
               then {[m]} ∪ out else out) out l
  ↔ m ∈ out ∨ (m ∈ l ∧ is_third_party fs py m stdlib pkg_map = true).
Proof.
  revert out. induction l as [|m' l IH]; intros out; simpl.
  - rewrite elem_of_nil. tauto.
  - rewrite IH, elem_of_cons.
    destruct (is_third_party fs py m' stdlib pkg_map) eqn:Hm'.
    + rewrite elem_of_union, elem_of_singleton. split.
      * intros [[->|?]|[? ?]]; auto.
      * intros [?|[[->|?] ?]]; auto.
    + split.
      * intros [?|[? ?]]; auto.
      * intros [?|[[->|?] ?]]; [auto|congruence|auto].
Qed.

Lemma third_party_among_elem (names stdlib : gset string)
    (pkg_map : gmap string (list string)) (m : string) :
  m ∈ third_party_among fs py names stdlib pkg_map
  ↔ m ∈ names ∧ is_third_party fs py m stdlib pkg_map = true.
Proof.
  unfold third_party_among. rewrite third_party_fold_elem, sorted_elem.
  set_solver.
Qed.

Lemma is_third_party_true (m : string) (stdlib : gset string)
    (pkg_map : gmap string (list string)) :
  is_third_party fs py m stdlib pkg_map = true →
  top_level_module m ≠ "" ∧ top_level_module m ∉ stdlib.
Proof.
  unfold is_third_party.
  destruct (truthy (top_level_module m)) eqn:Hm; simpl; [|done].
  case_bool_decide; [done|]. intros _. by apply truthy_spec in Hm.
Qed.

Lemma scan_project_segments script scan_all (m : string) :
  m ∈ imports (scan_project fs py script scan_all)
  ∨ m ∈ dynamic_imports (scan_project fs py script scan_all) →
  top_level_module m = m.
Proof.
  rewrite scan_project_imports, scan_project_dynamic.
  intros [(g & _ & Hm)|(g & _ & Hm)]; apply (parse_imports_segments fs py g); auto.
Qed.

(** What an analysis that ran holds. *)
Lemma analyze_Some script_var scan_all stdlib pkg_map (a : Analysis) :
  _analyze fs py script_var scan_all stdlib pkg_map = Some a →
  ∃ script,
    detected_imports a
    = third_party_among fs py
        (imports (scan_project fs py script scan_all)) stdlib pkg_map
    ∧ detected_dynamic a
      = third_party_among fs py
          (dynamic_imports (scan_project fs py script scan_all)) stdlib pkg_map
    ∧ detected_collect_all a
      = suggest_collect_all (detected_imports a ∪ detected_dynamic a).
Proof.
  unfold _analyze. destruct (truthy (strip script_var)); [|done].
  destruct (exists_ fs _); simpl; [|done].
  intros [= <-]. by eexists.
Qed.

(** X15: after an analysis, a name among the hidden imports that was not
    added by hand is not empty, is not in the standard library set, and
    classifies as third-party: no module of the standard library becomes
    a hidden import by detection. *)
Theorem analyze_hidden_imports script_var scan_all stdlib pkg_map
    (a : Analysis) (manual : list string) (x : string) :
  _analyze fs py script_var scan_all stdlib pkg_map = Some a →
  x ∈ _assemble_hidden_imports (detected_imports a) (detected_dynamic a) manual →
  x ∈ manual
  ∨ (x ≠ "" ∧ (x ∉ stdlib) ∧ is_third_party fs py x stdlib pkg_map = true).
Proof.
  intros (script & Himports & Hdynamic & _)%analyze_Some.
  unfold _assemble_hidden_imports.
  rewrite sorted_elem, !elem_of_union, elem_of_list_to_set.
  rewrite Himports, Hdynamic, !third_party_among_elem.
  intros [[[Hx Hthird]|[Hx Hthird]]|?]; [right|right|left; done];
    apply is_third_party_true in Hthird as Htop;
    rewrite (scan_project_segments script scan_all x) in Htop by auto;
    by destruct Htop.
Qed.

(** X16: after an analysis, every package suggested for collection is
    one of the detected names, except [Pillow], which may stand for the
    detected name [PIL]. *)
Theorem analyze_collect_all script_var scan_all stdlib pkg_map
    (a : Analysis) (x : string) :
  _analyze fs py script_var scan_all stdlib pkg_map = Some a →
  x ∈ detected_collect_all a →
  x ∈ detected_imports a ∪ detected_dynamic a
  ∨ (x = "Pillow" ∧ "PIL" ∈ detected_imports a ∪ detected_dynamic a).
Proof.
  intros (script & Himports & Hdynamic & ->)%analyze_Some.
  intros (m & Hm & _ & ->)%suggest_collect_all_elem.
  assert (top_level_module m = m) as ->.
  { apply (scan_project_segments script scan_all).
    rewrite Himports, Hdynamic in Hm.
    apply elem_of_union in Hm as [Hm|Hm];
      apply third_party_among_elem in Hm as [? _]; auto. }
  destruct (String.eqb_spec m "PIL") as [->|?]; simpl; auto.
Qed.

End AnalysisProperties.

(** ** The warning filter of child processes *)

Lemma split_app (sep : ascii) (s1 s2 : string) :
  split sep (s1 +:+ String sep s2) = split sep s1 ++ split sep s2.
Proof.
  induction s1 as [|c s1 IH]; simpl.
  - by rewrite Ascii.eqb_refl.
  - destruct (Ascii.eqb c sep); [by rewrite IH|].
    rewrite IH. pose proof (split_nonempty sep s1).
    by destruct (split sep s1).
Qed.

Lemma truthy_app (s1 s2 : string) : truthy s1 = true → truthy (s1 +:+ s2) = true.
Proof. by destruct s1. Qed.

(** The rules of a value of [PYTHONWARNINGS]. *)
Lemma warning_rules_app (existing : string) :
  filter (λ p, truthy p = true)
         (strip <$> split ","
            (existing +:+ "," +:+ "ignore::SyntaxWarning:peutils"))
  = filter (λ p, truthy p = true) (strip <$> split "," existing)
    ++ ["ignore::SyntaxWarning:peutils"].
Proof.
  change ("," +:+ "ignore::SyntaxWarning:peutils")
    with (String "," "ignore::SyntaxWarning:peutils").
  by rewrite split_app, fmap_app, filter_app.
Qed.

Lemma peutils_filter_rule (os_environ : gmap string string)
    (env : option (gmap string string)) :
  ∃ v,
    _with_peutils_syntaxwarning_filter_env os_environ env
      !! "PYTHONWARNINGS" = Some v
    ∧ truthy v = true
    ∧ "ignore::SyntaxWarning:peutils"
      ∈ filter (λ p, truthy p = true) (strip <$> split "," v).
Proof.
  unfold _with_peutils_syntaxwarning_filter_env.
  set (e := default os_environ env).
  destruct (e !! "PYTHONWARNINGS") as [existing|] eqn:He; simpl.
  - destruct (truthy existing) eqn:Hexisting.
    + case_bool_decide as Hrule.
      * by exists existing.
      * eexists. rewrite lookup_insert_eq. split; [done|].
        split; [by apply truthy_app|].
        rewrite warning_rules_app. set_solver.
    + eexists. rewrite lookup_insert_eq. split; [done|].
      split; [done | by_evaluation].
  - eexists. rewrite lookup_insert_eq. split; [done|].
    split; [done | by_evaluation].
Qed.

(** An environment that holds the rule is returned as it is. *)
Lemma peutils_filter_fixed (os_environ e : gmap string string) (v : string) :
  e !! "PYTHONWARNINGS" = Some v →
  truthy v = true →
  "ignore::SyntaxWarning:peutils"
    ∈ filter (λ p, truthy p = true) (strip <$> split "," v) →
  _with_peutils_syntaxwarning_filter_env os_environ (Some e) = e.
Proof.
  intros He Hv Hrule. unfold _with_peutils_syntaxwarning_filter_env. simpl.
  rewrite He. simpl. rewrite Hv. by rewrite bool_decide_eq_true_2.
Qed.

(** X17: in the environment that the function returns, the rule that
    silences the warning of [peutils] is one of the rules of
    [PYTHONWARNINGS]. *)
Theorem peutils_filter_present (os_environ : gmap string string)
    (env : option (gmap string string)) :
  ∃ v,
    _with_peutils_syntaxwarning_filter_env os_environ env
      !! "PYTHONWARNINGS" = Some v
    ∧ "ignore::SyntaxWarning:peutils"
      ∈ filter (λ p, truthy p = true) (strip <$> split "," v).
Proof.
  destruct (peutils_filter_rule os_environ env) as (v & ? & _ & ?). eauto.
Qed.

(** X18: the function is idempotent: applied to its own result, it
    returns that result, and adds the rule no second time. *)
Theorem peutils_filter_idempotent (os_environ : gmap string string)
    (env : option (gmap string string)) :
  _with_peutils_syntaxwarning_filter_env os_environ
    (Some (_with_peutils_syntaxwarning_filter_env os_environ env))
  = _with_peutils_syntaxwarning_filter_env os_environ env.
Proof.
  destruct (peutils_filter_rule os_environ env) as (v & ? & ? & ?).
  by eapply peutils_filter_fixed.
Qed.

(** X19: the function changes no other variable, and it keeps what
    [PYTHONWARNINGS] held: the new value is the old one, or the old one
    followed by a comma and the rule. *)
Theorem peutils_filter_frame (os_environ : gmap string string)
    (env : option (gmap string string)) :
  (∀ k, k ≠ "PYTHONWARNINGS" →
        _with_peutils_syntaxwarning_filter_env os_environ env !! k
        = default os_environ env !! k)
  ∧ (∀ v, default os_environ env !! "PYTHONWARNINGS" = Some v →
          v ≠ "" →
          _with_peutils_syntaxwarning_filter_env os_environ env
            !! "PYTHONWARNINGS" = Some v
          ∨ _with_peutils_syntaxwarning_filter_env os_environ env
              !! "PYTHONWARNINGS"
            = Some (v +:+ "," +:+ "ignore::SyntaxWarning:peutils")).
Proof.
  unfold _with_peutils_syntaxwarning_filter_env.
  set (e := default os_environ env). split.
  - intros k Hk. destruct (truthy _); [case_bool_decide|];
      by rewrite ?lookup_insert_ne.
  - intros v Hv Hne. rewrite Hv. simpl.
    rewrite (proj2 (truthy_spec v) Hne).
    case_bool_decide; [by left | right; by rewrite lookup_insert_eq].
Qed.

(** ** Version numbers *)

Lemma append_cons (c : ascii) (s1 s2 : string) :
  String c s1 +:+ s2 = String c (s1 +:+ s2).
Proof. reflexivity. Qed.

Lemma append_nil_l (s : string) : "" +:+ s = s.
Proof. reflexivity. Qed.

Lemma append_nil_r (s : string) : s +:+ "" = s.
Proof.
  induction s as [|c s IH]; [done|]. by rewrite append_cons, IH.
Qed.

Lemma re_split_nonempty (in_sep : bool) (s : string) :
  re_split_non_digits in_sep s ≠ [].
Proof.
  revert in_sep. induction s as [|c s IH]; intros in_sep; simpl; [done|].
  destruct (isdigit c).
  - specialize (IH false). by destruct (re_split_non_digits false s).
  - destruct in_sep; [apply IH | done].
Qed.

(** A run of digits joins the piece that follows it. *)
Lemma re_split_digits (d rest : string) :
  all_chars isdigit d = true →
  re_split_non_digits false (d +:+ rest)
  = match re_split_non_digits false rest with
    | piece :: pieces => (d +:+ piece) :: pieces
    | [] => [d]
    end.
Proof.
  intros Hd. induction d as [|c d IH]; simpl in Hd.
  - rewrite append_nil_l. pose proof (re_split_nonempty false rest).
    by destruct (re_split_non_digits false rest).
  - apply andb_true_iff in Hd as [Hc Hd].
    rewrite append_cons. simpl. rewrite Hc, (IH Hd).
    by destruct (re_split_non_digits false rest).
Qed.

(** A run of other characters separates two pieces. *)
Lemma re_split_separator_after (sep rest : string) :
  all_chars (λ c, negb (isdigit c)) sep = true →
  re_split_non_digits true (sep +:+ rest) = re_split_non_digits true rest.
Proof.
  intros Hsep. induction sep as [|c sep IH]; simpl in Hsep; [done|].
  apply andb_true_iff in Hsep as [Hc Hsep].
  apply negb_true_iff in Hc. rewrite append_cons. simpl. rewrite Hc.
  by apply IH.
Qed.

Lemma re_split_separator (sep rest : string) :
  sep ≠ "" →
  all_chars (λ c, negb (isdigit c)) sep = true →
  re_split_non_digits false (sep +:+ rest)
  = "" :: re_split_non_digits true rest.
Proof.
  intros Hne Hsep. destruct sep as [|c sep]; [done|]. simpl in Hsep.
  apply andb_true_iff in Hsep as [Hc Hsep].
  apply negb_true_iff in Hc. rewrite append_cons. simpl. rewrite Hc.
  by rewrite re_split_separator_after.
Qed.

(** After a separator, a string that starts with a digit splits as at
    the start. *)
Lemma re_split_restart (d rest : string) :
  d ≠ "" →
  all_chars isdigit d = true →
  re_split_non_digits true (d +:+ rest)
  = re_split_non_digits false (d +:+ rest).
Proof.
  intros Hne Hd. destruct d as [|c d]; [done|]. simpl in Hd.
  apply andb_true_iff in Hd as [Hc _]. rewrite append_cons. simpl.
  by rewrite Hc.
Qed.

(** The pieces of a list of numerals joined by a separator are the
    numerals. *)
Lemma re_split_join (sep : string) (ds : list string) (in_sep : bool) :
  sep ≠ "" →
  all_chars (λ c, negb (isdigit c)) sep = true →
  Forall (λ d, d ≠ "" ∧ all_chars isdigit d = true) ds →
  filter (λ p, truthy p = true) (re_split_non_digits in_sep (join sep ds)) = ds.
Proof.
  intros Hne Hsep Hds. revert in_sep.
  induction Hds as [|d ds [Hd Hdigits] Hds IH]; intros in_sep.
  - by destruct in_sep.
  - assert (∀ rest, re_split_non_digits in_sep (d +:+ rest)
                    = re_split_non_digits false (d +:+ rest)) as Hstart.
    { intros rest. destruct in_sep; [by apply re_split_restart | done]. }
    destruct ds as [|d' ds].
    + simpl. rewrite <- (append_nil_r d), Hstart, re_split_digits by done.
      simpl. rewrite append_nil_r.
      rewrite filter_cons_True by by apply truthy_spec. done.
    + change (join sep (d :: d' :: ds))
        with (d +:+ sep +:+ join sep (d' :: ds)).
      rewrite Hstart, re_split_digits, re_split_separator by done.
      rewrite append_nil_r, filter_cons_True by by apply truthy_spec.
      f_equal. apply IH.
Qed.

Lemma isdigit_char (c : ascii) :
  isdigit c = true →
  c ∈ ["0"; "1"; "2"; "3"; "4"; "5"; "6"; "7"; "8"; "9"]%char.
Proof.
  destruct c as [[] [] [] [] [] [] [] []]; try discriminate;
    intros _; by_evaluation.
Qed.

Lemma uint_of_digits (x : string) :
  all_chars isdigit x = true → is_Some (NilEmpty.uint_of_string x).
Proof.
  induction x as [|c x IH]; simpl; [by eexists|].
  intros [Hc Hx]%andb_true_iff. destruct (IH Hx) as [d ->].
  apply isdigit_char in Hc.
  repeat (apply elem_of_cons in Hc as [->|Hc]; [by eexists|]).
  by apply elem_of_nil in Hc.
Qed.

Lemma string_of_uint_digits (d : Decimal.uint) :
  all_chars isdigit (NilEmpty.string_of_uint d) = true.
Proof. induction d; simpl; auto. Qed.

(** The numeral of a number is a string of digits that is not empty, and
    [int] reads the number back. *)
Lemma str_of_N_digits (n : N) :
  str_of_N n ≠ "" ∧ all_chars isdigit (str_of_N n) = true.
Proof.
  split; [|apply string_of_uint_digits].
  unfold str_of_N. intros Hempty.
  assert (N.to_uint n = Decimal.Nil) as Hnil.
  { destruct (N.to_uint n); simpl in Hempty; congruence. }
  pose proof (DecimalN.Unsigned.of_to n) as Hn. rewrite Hnil in Hn.
  simpl in Hn. subst n. discriminate.
Qed.

Lemma int_of_digits_str (max_str_digits : nat) (n : N) :
  max_str_digits = 0 ∨ String.length (str_of_N n) ≤ max_str_digits →
  int_of_digits max_str_digits (str_of_N n) = Ok n.
Proof.
  intros Hmax. unfold int_of_digits.
  assert ((0 <? max_str_digits)
          && (max_str_digits <? String.length (str_of_N n)) = false) as ->.
  { apply andb_false_iff. rewrite !Nat.ltb_ge. lia. }
  destruct (str_of_N_digits n) as [Hne _].
  rewrite (proj2 (truthy_spec _) Hne).
  unfold str_of_N. by rewrite NilEmpty.usu, DecimalN.Unsigned.of_to.
Qed.

Lemma int_of_digits_Ok (max_str_digits : nat) (x : string) :
  max_str_digits = 0 ∨ String.length x ≤ max_str_digits →
  truthy x = true →
  all_chars isdigit x = true →
  ∃ n, int_of_digits max_str_digits x = Ok n.
Proof.
  intros Hmax Hx Hdigits. unfold int_of_digits.
  assert ((0 <? max_str_digits)
          && (max_str_digits <? String.length x) = false) as ->.
  { apply andb_false_iff. rewrite !Nat.ltb_ge. lia. }
  rewrite Hx. destruct (uint_of_digits x Hdigits) as [d ->]. by eexists.
Qed.

Lemma traverse_fmap {A B} (f : A → outcome B) (g : B → A) (l : list B) :
  Forall (λ y, f (g y) = Ok y) l → traverse f (g <$> l) = Ok l.
Proof.
  induction 1 as [|y l Hy _ IH]; [done|].
  rewrite fmap_cons. simpl. rewrite Hy. simpl. by rewrite IH.
Qed.

Lemma traverse_Ok {A B} (f : A → outcome B) (l : list A) :
  Forall (λ x, ∃ y, f x = Ok y) l →
  ∃ ys, traverse f l = Ok ys ∧ length ys = length l.
Proof.
  induction 1 as [|x l [y Hy] _ (ys & IH & Hlen)]; simpl; [by eexists|].
  rewrite Hy, IH. simpl. eexists. split; [done|]. simpl. by rewrite Hlen.
Qed.

Lemma take_4_padded {A} (l zeros : list A) :
  take 4 (take 4 l ++ zeros) = take 4 (l ++ zeros).
Proof. by destruct l as [|a [|b [|c [|d l]]]]. Qed.

(** The pieces of a split are strings of digits, no longer than the
    string. *)
Lemma re_split_pieces (in_sep : bool) (s : string) :
  Forall (λ p, all_chars isdigit p = true
               ∧ String.length p ≤ String.length s)
         (re_split_non_digits in_sep s).
Proof.
  revert in_sep. induction s as [|c s IH]; intros in_sep; simpl.
  - by repeat constructor.
  - destruct (isdigit c) eqn:Hc.
    + specialize (IH false). pose proof (re_split_nonempty false s).
      destruct (re_split_non_digits false s) as [|piece pieces]; [done|].
      inversion IH as [|? ? [? ?] Hpieces]; subst. constructor.
      * simpl. rewrite Hc. split; [done | lia].
      * eapply Forall_impl; [exact Hpieces|]. simpl. intros ? [? ?].
        split; [done | lia].
    + assert (Forall (λ p, all_chars isdigit p = true
                           ∧ String.length p ≤ S (String.length s))
                     (re_split_non_digits true s)) as Hrest.
      { eapply Forall_impl; [apply IH|]. simpl. intros ? [? ?].
        split; [done | lia]. }
      destruct in_sep; [done|]. constructor; [|done]. simpl. split; [done|lia].
Qed.

Lemma all_chars_impl (test test' : ascii → bool) (s : string) :
  (∀ c, test c = true → test' c = true) →
  all_chars test s = true → all_chars test' s = true.
Proof.
  intros Himpl. induction s as [|c s IH]; simpl; [done|].
  intros [Hc Hs]%andb_true_iff. by rewrite (Himpl c Hc), IH.
Qed.

Lemma ascii_non_digit_isdigit (s : string) :
  all_chars ascii_non_digit s = true →
  all_chars (λ c, negb (isdigit c)) s = true.
Proof.
  apply all_chars_impl. unfold ascii_non_digit.
  by intros c [_ ?]%andb_true_iff.
Qed.

(** X20: a version of up to four numbers joined by dots, or by any
    other separator of ASCII characters without digits, is read back as
    these numbers followed by zeros up to four components; of more than
    four numbers the first four are kept. *)
Theorem parse_version_tuple_join (max_str_digits : nat) (ns : list N)
    (sep : string) :
  sep ≠ "" →
  all_chars ascii_non_digit sep = true →
  max_str_digits = 0
  ∨ Forall (λ n, String.length (str_of_N n) ≤ max_str_digits) ns →
  _parse_version_tuple max_str_digits (join sep (str_of_N <$> ns))
  = Ok (take 4 (ns ++ [0; 0; 0; 0]%N)).
Proof.
  intros Hne Hsep%ascii_non_digit_isdigit Hmax. unfold _parse_version_tuple.
  rewrite re_split_join; [|done..|].
  - rewrite take_take, <- fmap_take. simpl.
    rewrite traverse_fmap; [simpl; by rewrite take_4_padded|].
    apply Forall_forall. intros n Hn. apply int_of_digits_str.
    destruct Hmax as [?|Hmax]; [by left | right].
    rewrite Forall_forall in Hmax. apply Hmax.
    apply elem_of_take in Hn as (i & Hi & _).
    by eapply list_elem_of_lookup_2.
  - apply Forall_fmap, Forall_true. intros n. apply str_of_N_digits.
Qed.

(** X21: for every string within the limit of the conversion of integers,
    the function returns, and it returns four components. *)
Theorem parse_version_tuple_length (max_str_digits : nat) (s : string) :
  max_str_digits = 0 ∨ String.length s ≤ max_str_digits →
  ∃ t, _parse_version_tuple max_str_digits s = Ok t ∧ length t = 4.
Proof.
  intros Hmax. unfold _parse_version_tuple.
  destruct (traverse_Ok (int_of_digits max_str_digits)
              (take 4 (take 4 (filter (λ p, truthy p = true)
                                      (re_split_non_digits false s)))))
    as (nums & -> & Hlen).
  - apply Forall_take, Forall_take.
    pose proof (re_split_pieces false s) as Hpieces.
    rewrite Forall_forall in Hpieces. apply Forall_forall.
    intros x [Hx Hin]%list_elem_of_filter.
    destruct (Hpieces x Hin) as [? ?].
    apply int_of_digits_Ok; [|done..].
    destruct Hmax as [?|?]; [by left | right; by etrans].
  - simpl. eexists. split; [done|].
    rewrite length_take, length_app. cbn [length]. lia.
Qed.

(** X22: a string of ASCII characters without a digit, the empty string
    among them, gives the version of four zeros. *)
Theorem parse_version_tuple_no_digit (max_str_digits : nat) (s : string) :
  all_chars ascii_non_digit s = true →
  _parse_version_tuple max_str_digits s = Ok [0; 0; 0; 0]%N.
Proof.
  intros Hs%ascii_non_digit_isdigit. unfold _parse_version_tuple.
  assert (filter (λ p, truthy p = true) (re_split_non_digits false s) = [])
    as ->; [|done].
  destruct s as [|c s]; [done|].
  rewrite <- (append_nil_r (String c s)).
  by rewrite re_split_separator.
Qed.

(** ** The lists of the window *)

Lemma remove_first_sublist {A} (test : A → bool) (l : list A) :
  remove_first test l `sublist_of` l
  ∧ length l ≤ S (length (remove_first test l)).
Proof.
  induction l as [|x l [IH1 IH2]]; simpl; [split; [done | lia]|].
  destruct (test x); simpl.
  - split; [by apply sublist_cons | lia].
  - split; [by apply sublist_skip | lia].
Qed.

(** The first element that passes the test is the one that goes. *)
Lemma remove_first_delete {A} (test : A → bool) (l : list A) (i : nat) (x : A) :
  l !! i = Some x →
  test x = true →
  (∀ j y, j < i → l !! j = Some y → test y = false) →
  remove_first test l = delete i l.
Proof.
  revert i. induction l as [|y l IH]; intros [|i] Hi Hx Hbefore;
    simpl in *; try done.
  - injection Hi as ->. by rewrite Hx.
  - rewrite (Hbefore 0 y) by (done || lia). f_equal.
    apply IH; [done..|]. intros j z Hj Hz. apply (Hbefore (S j) z); [lia|done].
Qed.

Lemma prefix_append (s rest : string) : String.prefix s (s +:+ rest) = true.
Proof.
  induction s as [|c s IH]; [by destruct rest|].
  rewrite append_cons. simpl. by destruct (ascii_dec c c).
Qed.

Section WindowProperties.
Context (fs : FileSystem) (py : Interpreter).

(** X23: adding an extra path keeps the paths already there in their
    order; it adds the resolved directory unless the list holds it, so
    that the list stays free of duplicates and adding the same directory
    twice is the same as adding it once. *)
Theorem add_extra_path_once (d : string) (extra_paths : list Path) :
  extra_paths `prefix_of` _add_extra_path fs py d extra_paths
  ∧ (d ≠ "" →
     resolve fs (Path_of_str py d) ∈ _add_extra_path fs py d extra_paths)
  ∧ (NoDup extra_paths → NoDup (_add_extra_path fs py d extra_paths))
  ∧ _add_extra_path fs py d (_add_extra_path fs py d extra_paths)
    = _add_extra_path fs py d extra_paths.
Proof.
  unfold _add_extra_path. destruct (truthy d) eqn:Hd; simpl.
  - case_bool_decide as Hp; simpl.
    + repeat split; [done..|]. by rewrite bool_decide_eq_true_2.
    + split; [by apply prefix_app_r|]. split; [set_solver|]. split.
      * intros Hnodup. apply NoDup_app. repeat split; [done| |apply NoDup_singleton].
        by intros x ? ->%list_elem_of_singleton.
      * rewrite bool_decide_eq_true_2; [done | set_solver].
  - apply truthy_false in Hd. by repeat split.
Qed.

(** X24: removing selected lines only takes mappings away: what is left
    is a sublist of the mappings added by hand, in their order, and at
    most one mapping goes for each selected line. *)
Theorem remove_selected_datas_only_removes (items : list string)
    (manual_datas : list (Path * string)) :
  _remove_selected_datas py items manual_datas `sublist_of` manual_datas
  ∧ length manual_datas
    ≤ length (_remove_selected_datas py items manual_datas) + length items.
Proof.
  unfold _remove_selected_datas. revert manual_datas.
  induction items as [|item items IH]; intros manual_datas; simpl.
  - split; [done | lia].
  - destruct (IH (remove_first
                    (λ t, String.prefix (Path.str (os_sep py) t.1) item)
                    manual_datas)) as [IH1 IH2].
    destruct (remove_first_sublist
                (λ t : Path * string,
                   String.prefix (Path.str (os_sep py) t.1) item)
                manual_datas) as [H1 H2].
    split; [by etrans | lia].
Qed.

(** X25: for the selected line of a mapping, the mapping that goes is the
    first one whose path, as a string, starts the line: it is the selected
    mapping when no mapping before it has such a path. *)
Theorem remove_selected_datas_line (manual_datas : list (Path * string))
    (i : nat) (t : Path * string) :
  manual_datas !! i = Some t →
  (∀ j t', j < i → manual_datas !! j = Some t' →
           String.prefix (Path.str (os_sep py) t'.1) (datas_line py t) = false) →
  _remove_selected_datas py [datas_line py t] manual_datas
  = delete i manual_datas.
Proof.
  intros Hi Hbefore. unfold _remove_selected_datas. simpl.
  apply (remove_first_delete _ _ i t); [done| |done].
  apply prefix_append.
Qed.

End WindowProperties.

(** * More properties on the sample project *)

Import SampleWindow.

Lemma is_third_party_located_witness :
  is_third_party fs py "requests.adapters" stdlib pkg_map = true
  ↔ Path.relative_to
      (resolve fs (Path_of_str py
         "/usr/lib/python3/dist-packages/requests/__init__.py"))
      (resolve fs (Path_of_str py "/usr/lib/python3.12")) = None.
Proof.
  apply (is_third_party_located fs py "requests.adapters" stdlib pkg_map).
  - vm_compute. discriminate.
  - by_evaluation.
  - by_evaluation.
  - reflexivity.
  - discriminate.
  - reflexivity.
Defined.

Lemma scan_names_top_level_witness :
  top_level_module "plugins" = "plugins"
  ∧ top_level_module "requests" = "requests".
Proof.
  split.
  - apply (proj1 (scan_names_top_level fs py main_py main_py true "plugins")).
    right. by_evaluation.
  - apply (proj2 (scan_names_top_level fs py main_py main_py true "requests")).
    left. by_evaluation.
Defined.

Lemma find_literal_files_from_match_witness :
  ∃ src raw,
    read_text fs main_py = Ok src
    ∧ raw ∈ FILE_EXT_PATTERN_finditer py src
    ∧ raw ≠ ""
    ∧ config_json = literal_candidate fs py main_py raw
    ∧ exists_ fs config_json = true ∧ is_file fs config_json = true.
Proof.
  apply (find_literal_files_from_match fs py main_py cwd config_json).
  - reflexivity.
  - by_evaluation.
Defined.

Lemma scan_project_literal_files_exist_witness :
  (∃ g, g ∈ files_to_scan fs typed_script true
        ∧ config_json
          ∈ find_literal_files fs py g (resolve fs (Path.parent typed_script)))
  ∧ exists_ fs config_json = true ∧ is_file fs config_json = true
  ∧ is_dir fs config_json = false.
Proof.
  apply (scan_project_literal_files_exist fs py typed_script true config_json).
  by_evaluation.
Defined.

Lemma auto_data_dirs_spec_witness :
  (auto_data_dirs fs py cwd).*2 `sublist_of` AUTO_DATA_DIRS
  ∧ ∀ d name,
      (d, name) ∈ auto_data_dirs fs py cwd
      ↔ name ∈ AUTO_DATA_DIRS
        ∧ d = Path.joinpath cwd (Path_of_str py name)
        ∧ exists_ fs d = true ∧ is_dir fs d = true.
Proof. apply (auto_data_dirs_spec fs py cwd). Defined.

(** The sample has two of the conventional directories. *)
Example auto_data_dirs_sample :
  auto_data_dirs fs py cwd
  = [(at_root ["proj"; "assets"], "assets"); (data_dir, "data")].
Proof. reflexivity. Qed.

Lemma assemble_datas_elem_witness :
  (config_json, "data")
    ∈ _assemble_datas fs py "/proj/main.py" manual_datas
        (detected_literal_files analysis) true
  ↔ (config_json, "data") ∈ manual_datas
    ∨ (config_json, "data")
      ∈ map_add_data_entries fs py
          (elements (detected_literal_files analysis))
          (Path.parent (resolve fs (Path_of_str py "/proj/main.py")))
    ∨ (true = true
       ∧ (config_json, "data")
         ∈ auto_data_dirs fs py
             (Path.parent (resolve fs (Path_of_str py "/proj/main.py")))).
Proof.
  apply (assemble_datas_elem fs py "/proj/main.py" manual_datas
           (detected_literal_files analysis) true).
Defined.

Lemma assemble_datas_order_witness :
  manual_datas
    `prefix_of` _assemble_datas fs py "/proj/main.py" manual_datas
                  (detected_literal_files analysis) true
  ∧ NoDup (_assemble_datas fs py "/proj/main.py" manual_datas
             (detected_literal_files analysis) true).
Proof.
  split.
  - apply (proj1 (assemble_datas_order fs py "/proj/main.py" manual_datas
                    (detected_literal_files analysis) true)).
  - apply (proj2 (assemble_datas_order fs py "/proj/main.py" manual_datas
                    (detected_literal_files analysis) true)).
    by_evaluation.
Defined.

(** The merged mappings of the sample: the directory [data] was added by
    hand and is not repeated as an automatic directory. *)
Example assemble_datas_sample :
  _assemble_datas fs py "/proj/main.py" manual_datas
    (detected_literal_files analysis) true
  = [(passwd, "."); (data_dir, "data"); (config_json, "data");
     (at_root ["proj"; "assets"], "assets")].
Proof. reflexivity. Qed.

Lemma suggest_collect_all_spec_witness :
  "Pillow" ∈ suggest_collect_all {["PIL.Image"; "requests"; "torch.nn"]}
  ↔ ∃ m, m ∈ ({["PIL.Image"; "requests"; "torch.nn"]} : gset string)
         ∧ top_level_module m ∈ HEAVY_LIBS
         ∧ "Pillow" = if negb (String.eqb (top_level_module m) "PIL")
                      then top_level_module m else "Pillow".
Proof.
  apply (suggest_collect_all_spec {["PIL.Image"; "requests"; "torch.nn"]}).
Defined.

Example suggest_collect_all_sample :
  suggest_collect_all {["PIL.Image"; "requests"; "torch.nn"; "yaml"]}
  = ["Pillow"; "torch"; "yaml"].
Proof. reflexivity. Qed.

Lemma suggest_collect_all_sorted_witness :
  Sorted String.le (suggest_collect_all {["PIL.Image"; "torch.nn"]})
  ∧ NoDup (suggest_collect_all {["PIL.Image"; "torch.nn"]})
  ∧ ("PIL" ∉ suggest_collect_all {["PIL.Image"; "torch.nn"]})
  ∧ "torch" ∈ HEAVY_LIBS.
Proof.
  destruct (suggest_collect_all_sorted {["PIL.Image"; "torch.nn"]})
    as (Hsorted & Hnodup & Hpil & Hheavy).
  split; [done|]. split; [done|]. split; [done|].
  apply Hheavy. by_evaluation.
Defined.

Lemma assemble_hidden_imports_spec_witness :
  Sorted String.le
    (_assemble_hidden_imports (detected_imports analysis)
       (detected_dynamic analysis) ["win32api"; "yaml"])
  ∧ NoDup (_assemble_hidden_imports (detected_imports analysis)
             (detected_dynamic analysis) ["win32api"; "yaml"])
  ∧ ("win32api" ∈ _assemble_hidden_imports (detected_imports analysis)
                    (detected_dynamic analysis) ["win32api"; "yaml"]
     ↔ "win32api" ∈ detected_imports analysis
       ∨ "win32api" ∈ detected_dynamic analysis
       ∨ "win32api" ∈ ["win32api"; "yaml"]).
Proof.
  destruct (assemble_hidden_imports_spec (detected_imports analysis)
              (detected_dynamic analysis) ["win32api"; "yaml"])
    as (Hsorted & Hnodup & Helem).
  split; [done|]. split; [done|]. apply Helem.
Defined.

Example assemble_hidden_imports_sample :
  _assemble_hidden_imports (detected_imports analysis)
    (detected_dynamic analysis) ["win32api"; "yaml"]
  = ["json"; "numpy"; "plugins"; "requests"; "win32api"; "yaml"].
Proof. reflexivity. Qed.

Lemma remove_selected_imports_hidden_witness :
  "numpy" ∈ _assemble_hidden_imports
              (_remove_selected_imports ["numpy"; "json"]
                 (detected_imports analysis))
              (detected_dynamic analysis) []
  ↔ ("numpy" ∈ detected_imports analysis ∧ "numpy" ∉ ["numpy"; "json"])
    ∨ "numpy" ∈ detected_dynamic analysis ∨ "numpy" ∈ @nil string.
Proof.
  apply (remove_selected_imports_hidden ["numpy"; "json"]
           (detected_imports analysis) (detected_dynamic analysis) [] "numpy").
Defined.

(** Of the two selected names, the detected import [json] goes and the
    dynamic import [numpy] stays. *)
Example remove_selected_imports_sample :
  _assemble_hidden_imports
    (_remove_selected_imports ["numpy"; "json"] (detected_imports analysis))
    (detected_dynamic analysis) []
  = ["numpy"; "plugins"; "requests"; "yaml"].
Proof. reflexivity. Qed.

Lemma analyze_hidden_imports_witness :
  "requests" ∈ @nil string
  ∨ ("requests" ≠ "" ∧ ("requests" ∉ stdlib)
     ∧ is_third_party fs py "requests" stdlib pkg_map = true).
Proof.
  apply (analyze_hidden_imports fs py " /proj/main.py " true stdlib pkg_map
           analysis [] "requests").
  - vm_compute. reflexivity.
  - by_evaluation.
Defined.

Lemma analyze_collect_all_witness :
  "yaml" ∈ detected_imports analysis ∪ detected_dynamic analysis
  ∨ ("yaml" = "Pillow"
     ∧ "PIL" ∈ detected_imports analysis ∪ detected_dynamic analysis).
Proof.
  apply (analyze_collect_all fs py " /proj/main.py " true stdlib pkg_map
           analysis "yaml").
  - vm_compute. reflexivity.
  - by_evaluation.
Defined.

Lemma peutils_filter_frame_witness :
  _with_peutils_syntaxwarning_filter_env environ None !! "PATH"
  = environ !! "PATH"
  ∧ (_with_peutils_syntaxwarning_filter_env environ None !! "PYTHONWARNINGS"
     = Some "error, default::UserWarning"
     ∨ _with_peutils_syntaxwarning_filter_env environ None !! "PYTHONWARNINGS"
       = Some ("error, default::UserWarning"
               +:+ "," +:+ "ignore::SyntaxWarning:peutils")).
Proof.
  split.
  - apply (proj1 (peutils_filter_frame environ None)). discriminate.
  - apply (proj2 (peutils_filter_frame environ None)); [reflexivity|].
    discriminate.
Defined.

Example peutils_filter_sample :
  _with_peutils_syntaxwarning_filter_env environ None !! "PYTHONWARNINGS"
  = Some "error, default::UserWarning,ignore::SyntaxWarning:peutils".
Proof. reflexivity. Qed.

Lemma parse_version_tuple_join_witness :
  _parse_version_tuple 4300 (join "." (str_of_N <$> [2; 14; 0]%N))
  = Ok (take 4 ([2; 14; 0] ++ [0; 0; 0; 0])%N).
Proof.
  apply (parse_version_tuple_join 4300 [2; 14; 0]%N ".").
  - discriminate.
  - reflexivity.
  - right. repeat (apply List.Forall_cons; [apply Nat.leb_le; reflexivity|]).
    apply List.Forall_nil.
Defined.

Lemma parse_version_tuple_length_witness :
  ∃ t, _parse_version_tuple 4300 "v10.020-rc3 build 7 x 9" = Ok t
       ∧ length t = 4.
Proof.
  apply (parse_version_tuple_length 4300 "v10.020-rc3 build 7 x 9").
  right. apply Nat.leb_le. reflexivity.
Defined.

Example parse_version_tuple_sample :
  _parse_version_tuple 4300 "v10.020-rc3 build 7 x 9"
  = Ok [10; 20; 3; 7]%N.
Proof. reflexivity. Qed.

Lemma parse_version_tuple_no_digit_witness :
  _parse_version_tuple 4300 "unknown" = Ok [0; 0; 0; 0]%N.
Proof. apply (parse_version_tuple_no_digit 4300 "unknown"). reflexivity. Defined.

Lemma add_extra_path_once_witness :
  [cwd] `prefix_of` _add_extra_path fs py "data" [cwd]
  ∧ resolve fs (Path_of_str py "data") ∈ _add_extra_path fs py "data" [cwd]
  ∧ NoDup (_add_extra_path fs py "data" [cwd])
  ∧ _add_extra_path fs py "data" (_add_extra_path fs py "data" [cwd])
    = _add_extra_path fs py "data" [cwd].
Proof.
  destruct (add_extra_path_once fs py "data" [cwd])
    as (Hprefix & Hin & Hnodup & Honce).
  split; [done|]. split; [by apply Hin|]. split; [|done].
  apply Hnodup. by_evaluation.
Defined.

Lemma remove_selected_datas_line_witness :
  _remove_selected_datas py [datas_line py (data_dir, "data")] manual_datas
  = delete 1 manual_datas.
Proof.
  apply (remove_selected_datas_line py manual_datas 1 (data_dir, "data")).
  - reflexivity.
  - intros [|j] t' Hj Ht'; [|lia]. injection Ht' as <-. reflexivity.
Defined.
